(** * linux-traffic-checker: monthly network usage accounting

    A shallow embedding of the two Go programs of the repository:

    - the scheduled program (big.Int counters, counter-reset detection,
      [SendMonthlyNetStats] fired by a cron job), in [Module Scheduled];
    - the one-shot program of [main.go] (int64 counters), in
      [Module OneShot].

    Go strings are byte sequences and are modelled by [string]; [big.Int]
    is [Z]; [int64] is [Z] with its wrap-around written out.  The effects
    of a run (state file, log, webhook requests, [os.Exit]) are threaded
    through a small state-and-exit monad. *)

From Stdlib Require Import ZArith List String Ascii Bool Lia DecimalString
  DecimalN.
Import ListNotations.

Local Open Scope string_scope.
Local Open Scope Z_scope.

(* ================================================================== *)
(** ** The Go library functions the program calls *)
(* ================================================================== *)

(** Package [strings]. *)
Module strings.

Fixpoint HasPrefix (s prefix : string) {struct prefix} : bool :=
  match prefix with
  | EmptyString => true
  | String p prefix' =>
      match s with
      | EmptyString => false
      | String c s' => Ascii.eqb c p && HasPrefix s' prefix'
      end
  end.

(** [strings.Contains(s, substr)]: [substr] occurs somewhere in [s]. *)
Fixpoint Contains (s substr : string) : bool :=
  HasPrefix s substr ||
  match s with
  | EmptyString => false
  | String _ s' => Contains s' substr
  end.

(** [strings.Split(s, sep)] for a one-byte separator (the program only
    splits on a newline): always at least one piece. *)
Fixpoint Split (s : string) (sep : ascii) : list string :=
  match s with
  | EmptyString => [EmptyString]
  | String c s' =>
      if Ascii.eqb c sep then EmptyString :: Split s' sep
      else match Split s' sep with
           | [] => [String c EmptyString]
           | piece :: pieces => String c piece :: pieces
           end
  end.

Definition byte (c : ascii) : N := N_of_ascii c.

(** Number of bytes of the white space rune (Go's [unicode.IsSpace]) that
    starts [s], or [0] when [s] does not start with one.  Lead bytes and
    ASCII bytes never occur inside a valid multi-byte rune, so matching the
    UTF-8 encodings byte-wise agrees with Go's rune-wise decoding. *)
Definition spaceLen (s : string) : nat :=
  match s with
  | EmptyString => 0%nat
  | String a r =>
      let a := byte a in
      if ((9 <=? a) && (a <=? 13) || (a =? 32))%N then 1%nat
      else
        match r with
        | EmptyString => 0%nat
        | String b r2 =>
            let b := byte b in
            if ((a =? 194) && ((b =? 133) || (b =? 160)))%N then 2%nat
            else
              match r2 with
              | EmptyString => 0%nat
              | String c _ =>
                  let c := byte c in
                  if ((a =? 225) && (b =? 154) && (c =? 128))%N then 3%nat
                  else if ((a =? 226) && (b =? 128) &&
                           ((128 <=? c) && (c <=? 138) || (c =? 168) ||
                            (c =? 169) || (c =? 175)))%N then 3%nat
                  else if ((a =? 226) && (b =? 129) && (c =? 159))%N then 3%nat
                  else if ((a =? 227) && (b =? 128) && (c =? 128))%N then 3%nat
                  else 0%nat
              end
        end
  end.

Definition flush (cur : string) : list string :=
  match cur with
  | EmptyString => []
  | _ => [cur]
  end.

(** [skip] counts the bytes of the current white space rune that are still
    to be dropped; [cur] is the field being collected. *)
Fixpoint fieldsFrom (s : string) (skip : nat) (cur : string) : list string :=
  match s with
  | EmptyString => flush cur
  | String c s' =>
      match skip with
      | S k => fieldsFrom s' k cur
      | O =>
          match spaceLen s with
          | O => fieldsFrom s' 0%nat (cur ++ String c EmptyString)
          | S k => flush cur ++ fieldsFrom s' k EmptyString
          end
      end
  end.

(** [strings.Fields(s)]: the maximal runs of non-space characters. *)
Definition Fields (s : string) : list string := fieldsFrom s 0%nat EmptyString.

(** [s\[n:\]]. *)
Fixpoint drop (n : nat) (s : string) : string :=
  match n, s with
  | O, _ => s
  | S _, EmptyString => EmptyString
  | S n', String _ s' => drop n' s'
  end.

(** [strings.Replace(s, old, new, 1)]: the first occurrence of [old] is
    replaced by [new]. *)
Fixpoint Replace_1 (s old new : string) : string :=
  if HasPrefix s old then new ++ drop (String.length old) s
  else match s with
       | EmptyString => EmptyString
       | String c s' => String c (Replace_1 s' old new)
       end.

(** [strings.Join(pieces, sep)] for a one-byte separator. *)
Fixpoint Join (pieces : list string) (sep : ascii) : string :=
  match pieces with
  | [] => EmptyString
  | [piece] => piece
  | piece :: pieces' => piece ++ String sep (Join pieces' sep)
  end.

End strings.

(** Package [strconv]. *)
Module strconv.

Inductive NumError : Type :=
| ErrSyntax
| ErrRange.

Definition maxUint64 : Z := 2 ^ 64 - 1.

(** The digit loop of [ParseUint(s, 10, 64)]: an overflow is reported as
    soon as it happens, before the remaining bytes are looked at. *)
Fixpoint parseUintLoop (s : string) (n : Z) : Z + NumError :=
  match s with
  | EmptyString => inl n
  | String c s' =>
      let b := Z.of_N (N_of_ascii c) in
      if (48 <=? b) && (b <=? 57) then
        let d := b - 48 in
        if n >=? maxUint64 / 10 + 1 then inr ErrRange
        else
          let n1 := n * 10 + d in
          if n1 >? maxUint64 then inr ErrRange
          else parseUintLoop s' n1
      else inr ErrSyntax
  end.

Definition ParseUint (s : string) : Z + NumError :=
  match s with
  | EmptyString => inr ErrSyntax
  | _ => parseUintLoop s 0
  end.

(** [strconv.ParseInt(s, 10, 64)]. *)
Definition ParseInt (s : string) : Z + NumError :=
  match s with
  | EmptyString => inr ErrSyntax
  | String c0 rest =>
      let neg := Ascii.eqb c0 "-" in
      let digits := if Ascii.eqb c0 "+" || neg then rest else s in
      match ParseUint digits with
      | inr ErrSyntax => inr ErrSyntax
      | inr ErrRange => inr ErrRange
      | inl un =>
          let cutoff := 2 ^ 63 in
          if negb neg && (un >=? cutoff) then inr ErrRange
          else if neg && (un >? cutoff) then inr ErrRange
          else inl (if neg then - un else un)
      end
  end.

End strconv.

(* ================================================================== *)
(** ** Reading the interface counters *)
(* ================================================================== *)

(** The errors a run can meet. *)
Inductive Error : Type :=
| ReadFileError                         (* os.ReadFile / os.UserHomeDir *)
| JSONError                             (* json.Unmarshal *)
| WriteFileError                        (* os.WriteFile *)
| ParseError (e : strconv.NumError)     (* strconv.ParseInt *)
| InterfaceNotFound (interfaceName : string)
| PostError                             (* http.Post *)
| DiscordAPIError (status : Z)
| SchedulerError.                       (* gocron.NewScheduler / NewJob *)

Definition newline : ascii := ascii_of_nat 10.

(** The loop of [readNetworkBytes] over the lines of /proc/net/dev. *)
Fixpoint scanLines (interfaceName : string) (lines : list string)
  : Z * Z + Error :=
  match lines with
  | [] => inr (InterfaceNotFound interfaceName)
  | line :: rest =>
      if strings.Contains line interfaceName then
        let parts := strings.Fields line in
        if (List.length parts <? 10)%nat then scanLines interfaceName rest
        else
          match strconv.ParseInt (nth 1 parts EmptyString) with
          | inr e => inr (ParseError e)
          | inl rxBytes =>
              match strconv.ParseInt (nth 9 parts EmptyString) with
              | inr e => inr (ParseError e)
              | inl txBytes => inl (rxBytes, txBytes)
              end
          end
      else scanLines interfaceName rest
  end.

(** [readNetworkBytes]; [procNetDev] is what [os.ReadFile] gives for
    /proc/net/dev ([None] when the read fails).  The two variants of the
    program differ only in wrapping the parsed int64 values in [big.Int]. *)
Definition readNetworkBytes (procNetDev : option string) (interfaceName : string)
  : Z * Z + Error :=
  match procNetDev with
  | None => inr ReadFileError
  | Some data => scanLines interfaceName (strings.Split data newline)
  end.

(* ================================================================== *)
(** ** Numbers as text *)
(* ================================================================== *)

(** A finite binary floating-point value, [mant / 2 ^ scale] with
    [0 <= scale]. *)
Record Dyadic : Type := mkDyadic { mant : Z; scale : Z }.

(** A float64 that is not a NaN. *)
Inductive float64 : Type :=
| Finite (d : Dyadic)
| Inf (negative : bool).

(** Round the non-negative integer [m] to [p] significant bits, to nearest
    and ties to even. *)
Definition roundBits (p m : Z) : Z :=
  let d := Z.log2 m + 1 - p in
  if d <=? 0 then m
  else
    let q := Z.shiftr m d in
    let r := m - Z.shiftl q d in
    let half := Z.shiftl 1 (d - 1) in
    let q' := if (r >? half) || ((r =? half) && Z.odd q) then q + 1 else q in
    Z.shiftl q' d.

(** Conversion to float64: 53 significant bits, infinite from 2^1024 on.
    The program divides an integer at most five times by 1024, so
    [scale <= 50] and no subnormal value arises. *)
Definition toFloat64 (x : Dyadic) : float64 :=
  let a := roundBits 53 (Z.abs (mant x)) in
  if a >=? 2 ^ (1024 + scale x) then Inf (mant x <? 0)
  else Finite (mkDyadic (Z.sgn (mant x) * a) (scale x)).

(** Quotient [num / den] ([0 <= num], [0 < den]) rounded to the nearest
    integer, ties to even. *)
Definition roundHalfEven (num den : Z) : Z :=
  let q := num / den in
  let r := num mod den in
  if (2 * r >? den) || ((2 * r =? den) && Z.odd q) then q + 1 else q.

Definition decimal (n : Z) : string :=
  NilZero.string_of_uint (N.to_uint (Z.to_N n)).

(** Package [fmt]. *)
Module fmt.

(** [h] hundredths printed with two decimals. *)
Definition fixed2 (negative : bool) (h : Z) : string :=
  (if negative then "-" else "") ++
  decimal (h / 100) ++ "." ++ decimal (h mod 100 / 10) ++ decimal (h mod 10).

(** The verb [%.2f]: the exact value of the float64, correctly rounded to
    two decimals. *)
Definition verb_2f (v : float64) : string :=
  match v with
  | Inf false => "+Inf"
  | Inf true => "-Inf"
  | Finite d =>
      fixed2 (mant d <? 0)
             (roundHalfEven (100 * Z.abs (mant d)) (2 ^ scale d))
  end.

(** [fmt.Sprintf("%.2f %s", val, unit)]. *)
Definition Sprintf_2f_s (val : float64) (unit : string) : string :=
  verb_2f val ++ " " ++ unit.

End fmt.

(** Package [math/big], as far as [formatBytes] uses it. *)
Module big.

(** A [big.Float] holding an integer divided by a power of two; its
    precision is at least the bit length of that integer, so all the
    values below are held exactly. *)
Definition Float : Type := Dyadic.

Definition SetInt (x : Z) : Float := mkDyadic x 0.

(** [big.NewFloat(1024.0)]. *)
Definition NewFloat_1024 : Float := mkDyadic 1024 0.

(** [x.Cmp(y)]: -1, 0 or +1. *)
Definition Cmp (x y : Float) : Z :=
  match mant x * 2 ^ scale y ?= mant y * 2 ^ scale x with
  | Lt => -1
  | Eq => 0
  | Gt => 1
  end.

(** [z.Quo(x, k)] for [k = 1024]: the mantissa is kept and the exponent
    drops by ten, so rounding to the precision of [z] changes nothing. *)
Definition Quo_1024 (x : Float) : Float := mkDyadic (mant x) (scale x + 10).

Definition Float64 (x : Float) : float64 := toFloat64 x.

End big.

(** The part of a clock reading ([time.Now()]) that the program uses: the
    local year and month, and the RFC 3339 text of the instant in UTC. *)
Record Time : Type := mkTime {
  Year : Z;
  MonthOfYear : Z;
  UTCRFC3339 : string
}.

(** Package [time]. *)
Module time.

Fixpoint zeros (n : nat) : string :=
  match n with
  | O => EmptyString
  | S n' => String "0" (zeros n')
  end.

(** [appendInt]: sign, then the digits padded with zeros to [width]. *)
Definition appendInt (x : Z) (width : nat) : string :=
  let digits := decimal (Z.abs x) in
  (if x <? 0 then "-" else "") ++
  zeros (width - String.length digits) ++ digits.

(** [t.Format("2006-01")]. *)
Definition Format_2006_01 (t : Time) : string :=
  appendInt (Year t) 4 ++ "-" ++ appendInt (MonthOfYear t) 2.

(** [t.Format("2006年1月")]. *)
Definition Format_2006nen1gatsu (t : Time) : string :=
  appendInt (Year t) 4 ++ "年" ++ appendInt (MonthOfYear t) 0 ++ "月".

End time.

(* ================================================================== *)
(** ** The world a run acts on *)
(* ================================================================== *)

(** The persisted record, [Stats]; the JSON text of the state file is
    identified with the record it encodes. *)
Record Stats : Type := mkStats {
  Month : string;
  RX : Z;
  TX : Z
}.

Record EmbedField : Type := mkEmbedField {
  Name : string;
  Value : string;
  Inline : bool
}.

Record DiscordEmbed : Type := mkDiscordEmbed {
  Title : string;
  Color : Z;
  Fields : list EmbedField;
  Timestamp : string
}.

Record DiscordPayload : Type := mkDiscordPayload {
  Username : string;
  Embeds : list DiscordEmbed
}.

(** What is found at a path where a state file is expected. *)
Inductive FileState : Type :=
| NotExist
| Unreadable
| Malformed
| Holds (stats : Stats).

Definition Disk : Type := string -> FileState.

Definition writeFile (d : Disk) (path : string) (stats : Stats) : Disk :=
  fun p => if String.eqb p path then Holds stats else d p.

Inductive Level : Type := LevelInfo | LevelWarn | LevelError.

Record LogEntry : Type := mkLogEntry {
  level : Level;
  msg : string;
  attr : option Error
}.

(** One call of [http.Post]. *)
Record Request : Type := mkRequest {
  url : string;
  body : DiscordPayload
}.

Record World : Type := mkWorld {
  disk : Disk;
  logged : list LogEntry;
  outbox : list Request
}.

(** Either the function returned, or [os.Exit] ended the process. *)
Inductive Outcome (A : Type) : Type :=
| Returned (a : A)
| Exited (code : Z).

Arguments Returned {A} a.
Arguments Exited {A} code.

Definition Run (A : Type) : Type := World -> Outcome A * World.

Definition ret {A : Type} (a : A) : Run A := fun w => (Returned a, w).

Definition bind {A B : Type} (m : Run A) (k : A -> Run B) : Run B :=
  fun w =>
    match m w with
    | (Returned a, w') => k a w'
    | (Exited code, w') => (Exited code, w')
    end.

Declare Scope run_scope.
Delimit Scope run_scope with run.
Notation "x <- m ;; k" := (bind m (fun x => k))
  (at level 61, m at next level, right associativity) : run_scope.
Notation "m ;;; k" := (bind m (fun _ => k))
  (at level 61, right associativity) : run_scope.
Local Open Scope run_scope.

Definition os_Exit {A : Type} (code : Z) : Run A := fun w => (Exited code, w).

Definition slog (l : Level) (m : string) (e : option Error) : Run unit :=
  fun w => (Returned tt,
            mkWorld (disk w) (logged w ++ [mkLogEntry l m e]) (outbox w)).

Definition slog_Error (m : string) (e : Error) : Run unit :=
  slog LevelError m (Some e).
Definition slog_Info (m : string) : Run unit := slog LevelInfo m None.
Definition slog_Warn (m : string) : Run unit := slog LevelWarn m None.

Definition getDisk : Run Disk := fun w => (Returned (disk w), w).

Record Config : Type := mkConfig {
  TimeZone : string;      (* read by the scheduled program only *)
  Interface : string;
  StatsFile : string;
  WebhookURL : string;
  BotName : string
}.

(** What one invocation finds around it. *)
Record Env : Type := mkEnv {
  configJSON : Config + Error;      (* config.json read and unmarshalled *)
  homeDir : option string;          (* os.UserHomeDir *)
  now : Time;                       (* time.Now; one instant per run *)
  procNetDev : option string;       (* contents of /proc/net/dev *)
  canWrite : string -> bool;        (* does os.WriteFile succeed there *)
  webhook : option Z                (* status answered to the POST, if any *)
}.

(** [readConfig]: a leading [~] of [stats_file] becomes the home directory. *)
Definition readConfig (env : Env) : Config + Error :=
  match configJSON env with
  | inr e => inr e
  | inl config =>
      match StatsFile config with
      | String "~" rest =>
          match homeDir env with
          | None => inr ReadFileError
          | Some home =>
              inl (mkConfig (TimeZone config) (Interface config) (home ++ rest)
                            (WebhookURL config) (BotName config))
          end
      | _ => inl config
      end
  end.

(** [loadStats]: the zero [Stats] and [isFirstRun = true] when the file
    does not exist. *)
Definition loadStats (statsFile : string) : Run (Stats * bool + Error) :=
  d <- getDisk ;;
  ret match d statsFile with
      | NotExist => inl (mkStats EmptyString 0 0, true)
      | Unreadable => inr ReadFileError
      | Malformed => inr JSONError
      | Holds stats => inl (stats, false)
      end.

(** [saveStats].  A write that fails is taken to fail before the file is
    truncated (no permission, read-only file system), so it leaves the
    file as it was. *)
Definition saveStats (env : Env) (statsFile : string) (stats : Stats)
  : Run (option Error) :=
  fun w =>
    if canWrite env statsFile
    then (Returned None,
          mkWorld (writeFile (disk w) statsFile stats) (logged w) (outbox w))
    else (Returned (Some WriteFileError), w).

(** [http.Post] and the check of the answer. *)
Definition http_Post (env : Env) (webhookURL : string) (payload : DiscordPayload)
  : Run (option Error) :=
  fun w =>
    (Returned match webhook env with
              | None => Some PostError
              | Some status =>
                  if status =? 204 then None else Some (DiscordAPIError status)
              end,
     mkWorld (disk w) (logged w) (outbox w ++ [mkRequest webhookURL payload])).

(** Which [return] of the run function was reached: the return after the
    first-run message, the return after the counter-reset warning, or the
    end of the function after the notification, with the usage values the
    notification was built from. *)
Inductive Action : Type :=
| Skip
| ResetDetected
| Report (usedRX usedTX usedTotal : Z).

(* ================================================================== *)
(** ** The scheduled program *)
(* ================================================================== *)

Module Scheduled.

Fixpoint formatLoop (units : list string) (fSize : big.Float) : string :=
  match units with
  | [] => fmt.Sprintf_2f_s (big.Float64 fSize) "PB"
  | unit :: units' =>
      if big.Cmp fSize big.NewFloat_1024 =? -1
      then fmt.Sprintf_2f_s (big.Float64 fSize) unit
      else formatLoop units' (big.Quo_1024 fSize)
  end.

Definition formatBytes (Bytes : Z) : string :=
  formatLoop ["B"; "KB"; "MB"; "GB"; "TB"] (big.SetInt Bytes).

Definition payloadOf (env : Env) (interfaceName rx tx total botName : string)
  : DiscordPayload :=
  let month := time.Format_2006nen1gatsu (now env) in
  let embed :=
    mkDiscordEmbed
      (interfaceName ++ " の通信量（" ++ month ++ "）")
      49151
      [ mkEmbedField "受信" rx true;
        mkEmbedField "送信" tx true;
        mkEmbedField "合計" total false ]
      (UTCRFC3339 (now env)) in
  mkDiscordPayload botName [embed].

Definition sendToDiscord (env : Env)
    (interfaceName rx tx total webhookURL botName : string)
  : Run (option Error) :=
  http_Post env webhookURL (payloadOf env interfaceName rx tx total botName).

Definition SendMonthlyNetStats (env : Env) : Run Action :=
  match readConfig env with
  | inr err => slog_Error "設定ファイルの読み込みエラー" err ;;; os_Exit 1
  | inl config =>
  let monthKey := time.Format_2006_01 (now env) in
  loaded <- loadStats (StatsFile config) ;;
  match loaded with
  | inr err => slog_Error "統計ファイルの読み込みエラー" err ;;; os_Exit 1
  | inl (stats, isFirstRun) =>
  match readNetworkBytes (procNetDev env) (Interface config) with
  | inr err => slog_Error "ネットワーク統計の読み込みエラー" err ;;; os_Exit 1
  | inl (currentRX, currentTX) =>
  stats <-
    (if negb (String.eqb (Month stats) monthKey) then
       let stats := mkStats monthKey currentRX currentTX in
       err <- saveStats env (StatsFile config) stats ;;
       match err with
       | Some err => slog_Error "統計ファイルの保存エラー" err ;;; os_Exit 1
       | None => slog_Info "新しい月の記録を開始しました" ;;; ret stats
       end
     else ret stats) ;;
  if isFirstRun then
    slog_Info "初回起動のためDiscord通知をスキップします" ;;; ret Skip
  else
    let usedRX := currentRX - RX stats in
    let usedTX := currentTX - TX stats in
    if (usedRX <? 0) || (usedTX <? 0) then
      _ <- saveStats env (StatsFile config)
                     (mkStats monthKey currentRX currentTX) ;;
      slog_Warn "カウントリセットを検出したため、今月の集計をリセットしました" ;;;
      ret ResetDetected
    else
      let total := usedRX + usedTX in
      err <- sendToDiscord env (Interface config)
               (formatBytes usedRX) (formatBytes usedTX) (formatBytes total)
               (WebhookURL config) (BotName config) ;;
      match err with
      | Some err => slog_Error "Discordへの送信エラー" err ;;; os_Exit 1
      | None => ret (Report usedRX usedTX total)
      end
  end end end.

(** What [main] finds when the process starts. *)
Record Boot : Type := mkBoot {
  bootEnv : Env;
  schedulerFails : bool;     (* gocron.NewScheduler returns an error *)
  jobFails : bool            (* s.NewJob returns an error *)
}.

(** The cron job: one call of [SendMonthlyNetStats] per firing, as long as
    the process lives. *)
Fixpoint fire (firings : list Env) : Run (list Action) :=
  match firings with
  | [] => ret []
  | env :: later =>
      a <- SendMonthlyNetStats env ;;
      rest <- fire later ;;
      ret (a :: rest)
  end.

(** [main], observed up to a finite number of firings of the monthly job
    (the process itself blocks for ever in [select {}]). *)
Definition main (boot : Boot) (firings : list Env) : Run (list Action) :=
  match readConfig (bootEnv boot) with
  | inr err => slog_Error "設定ファイルの読み込みエラー" err ;;; os_Exit 1
  | inl config =>
  if schedulerFails boot then
    slog_Error "スケジューラの作成に失敗" SchedulerError ;;; os_Exit 1
  else
    d <- getDisk ;;
    first <-
      (match d (StatsFile config) with
       | NotExist => a <- SendMonthlyNetStats (bootEnv boot) ;; ret [a]
       | _ => ret []
       end) ;;
    if jobFails boot then
      slog_Error "ジョブの登録に失敗" SchedulerError ;;; os_Exit 1
    else
      rest <- fire firings ;;
      ret (first ++ rest)%list
  end.

End Scheduled.

(* ================================================================== *)
(** ** The one-shot program (main.go) *)
(* ================================================================== *)

Module OneShot.

(** int64 arithmetic wraps around. *)
Definition wrap64 (z : Z) : Z := (z + 2 ^ 63) mod 2 ^ 64 - 2 ^ 63.

Definition isInt64 (z : Z) : bool := (- 2 ^ 63 <=? z) && (z <? 2 ^ 63).

(** [size < 1024.0] on float64. *)
Definition lt_1024 (size : float64) : bool :=
  match size with
  | Finite d => mant d <? 1024 * 2 ^ scale d
  | Inf negative => negative
  end.

(** [size /= 1024.0]: exact, the values divided are at least 1024. *)
Definition div_1024 (size : float64) : float64 :=
  match size with
  | Finite d => Finite (mkDyadic (mant d) (scale d + 10))
  | Inf negative => Inf negative
  end.

Fixpoint formatLoop (units : list string) (size : float64) : string :=
  match units with
  | [] => fmt.Sprintf_2f_s size "PB"
  | unit :: units' =>
      if lt_1024 size then fmt.Sprintf_2f_s size unit
      else formatLoop units' (div_1024 size)
  end.

Definition formatBytes (nBytes : Z) : string :=
  formatLoop ["B"; "KB"; "MB"; "GB"; "TB"] (toFloat64 (mkDyadic nBytes 0)).

(** [loadStats]: the counters of the file must fit int64 fields. *)
Definition loadStats (statsFile : string) : Run (Stats * bool + Error) :=
  d <- getDisk ;;
  ret match d statsFile with
      | NotExist => inl (mkStats EmptyString 0 0, true)
      | Unreadable => inr ReadFileError
      | Malformed => inr JSONError
      | Holds stats =>
          if isInt64 (RX stats) && isInt64 (TX stats) then inl (stats, false)
          else inr JSONError
      end.

Definition payloadOf (env : Env) (interfaceName rxGB txGB totalGB botName : string)
  : DiscordPayload :=
  let embed :=
    mkDiscordEmbed
      (interfaceName ++ " の通信量（今月）")
      49151
      [ mkEmbedField "受信" rxGB true;
        mkEmbedField "送信" txGB true;
        mkEmbedField "合計" totalGB false ]
      (UTCRFC3339 (now env)) in
  mkDiscordPayload botName [embed].

Definition sendToDiscord (env : Env)
    (interfaceName rxGB txGB totalGB webhookURL botName : string)
  : Run (option Error) :=
  http_Post env webhookURL (payloadOf env interfaceName rxGB txGB totalGB botName).

Definition main (env : Env) : Run Action :=
  match readConfig env with
  | inr err => slog_Error "設定ファイルの読み込みエラー" err ;;; os_Exit 1
  | inl config =>
  let monthKey := time.Format_2006_01 (now env) in
  loaded <- loadStats (StatsFile config) ;;
  match loaded with
  | inr err => slog_Error "統計ファイルの読み込みエラー" err ;;; os_Exit 1
  | inl (stats, isFirstRun) =>
  match readNetworkBytes (procNetDev env) (Interface config) with
  | inr err => slog_Error "ネットワーク統計の読み込みエラー" err ;;; os_Exit 1
  | inl (currentRX, currentTX) =>
  stats <-
    (if negb (String.eqb (Month stats) monthKey) then
       let stats := mkStats monthKey currentRX currentTX in
       err <- saveStats env (StatsFile config) stats ;;
       match err with
       | Some err => slog_Error "統計ファイルの保存エラー" err ;;; os_Exit 1
       | None => slog_Info "新しい月の記録を開始しました" ;;; ret stats
       end
     else ret stats) ;;
  if isFirstRun then
    slog_Info "初回起動のためDiscord通知をスキップします" ;;; ret Skip
  else
    let usedRX := wrap64 (currentRX - RX stats) in
    let usedTX := wrap64 (currentTX - TX stats) in
    let total := wrap64 (usedRX + usedTX) in
    err <- sendToDiscord env (Interface config)
             (formatBytes usedRX) (formatBytes usedTX) (formatBytes total)
             (WebhookURL config) (BotName config) ;;
    match err with
    | Some err => slog_Error "Discordへの送信エラー" err ;;; os_Exit 1
    | None => ret (Report usedRX usedTX total)
    end
  end end end.

End OneShot.

(* ================================================================== *)
(** ** The words of the specification, for comparison *)
(* ================================================================== *)

(** The period of a run: the month key of its clock reading. *)
Definition monthKeyOf (env : Env) : string := time.Format_2006_01 (now env).





(** A line of the statistics text that the lookup accepts for a name: the
    name occurs in it and it has at least ten fields. *)
Definition entryFor (interfaceName line : string) : bool :=
  strings.Contains line interfaceName &&
  (10 <=? List.length (strings.Fields line))%nat.

(** The counters written on a line: its second and its tenth field. *)
Definition countersOf (line : string) : Z * Z + Error :=
  let parts := strings.Fields line in
  match strconv.ParseInt (nth 1 parts EmptyString) with
  | inr e => inr (ParseError e)
  | inl rxBytes =>
      match strconv.ParseInt (nth 9 parts EmptyString) with
      | inr e => inr (ParseError e)
      | inl txBytes => inl (rxBytes, txBytes)
      end
  end.

(** How a run that posts a notification ends: the answer of the webhook
    decides between the return at the end of the function and [os.Exit]. *)
Definition afterPost (env : Env) (a : Action) : Outcome Action :=
  match webhook env with
  | Some status => if status =? 204 then Returned a else Exited 1
  | None => Exited 1
  end.

(** The request a run of the scheduled program posts for given usage
    values. *)
Definition requestFor (env : Env) (config : Config) (usedRX usedTX : Z)
  : Request :=
  mkRequest (WebhookURL config)
    (Scheduled.payloadOf env (Interface config)
       (Scheduled.formatBytes usedRX) (Scheduled.formatBytes usedTX)
       (Scheduled.formatBytes (usedRX + usedTX)) (BotName config)).

(** An invocation in the period of the stored [stats] whose counters are
    not below the baseline and whose notification is accepted. *)
Definition SamePeriodNormal (config : Config) (stats : Stats) (env : Env)
  : Prop :=
  readConfig env = inl config /\
  monthKeyOf env = Month stats /\
  webhook env = Some 204 /\
  exists currentRX currentTX,
    readNetworkBytes (procNetDev env) (Interface config)
    = inl (currentRX, currentTX) /\
    RX stats <= currentRX /\ TX stats <= currentTX.

Definition isReport (a : Action) : Prop :=
  match a with
  | Report _ _ _ => True
  | _ => False
  end.

(** The number of notifications handed to the webhook client. *)
Definition notifications (w : World) : nat := List.length (outbox w).

(* ================================================================== *)
(** ** Sample data *)
(* ================================================================== *)

Definition nl : string := String newline EmptyString.

Definition netDevOf (rx tx : string) : string :=
  "Inter-|   Receive                    |  Transmit" ++ nl ++
  " face |bytes packets errs drop fifo frame compressed multicast|bytes packets errs drop fifo colls carrier compressed" ++ nl ++
  "    lo: 100 2 0 0 0 0 0 0 100 2 0 0 0 0 0 0" ++ nl ++
  "  eth0: " ++ rx ++ " 7 0 0 0 0 0 0 " ++ tx ++ " 9 0 0 0 0 0 0" ++ nl.

(** A bridge port whose name contains the name [eth0] comes first. *)
Definition netDevShadowed : string :=
  "Inter-|   Receive                    |  Transmit" ++ nl ++
  " face |bytes packets errs drop fifo frame compressed multicast|bytes packets errs drop fifo colls carrier compressed" ++ nl ++
  " veth0: 111 2 0 0 0 0 0 0 222 2 0 0 0 0 0 0" ++ nl ++
  "  eth0: 5 7 0 0 0 0 0 0 6 9 0 0 0 0 0 0" ++ nl.

Definition sampleConfig : Config :=
  mkConfig "Asia/Tokyo" "eth0" "/var/lib/traffic/stats.json"
           "https://discord.example/api/webhooks/1" "traffic-bot".

Definition sampleEnv (year month : Z) (rx tx : string) (writable : bool)
  : Env :=
  mkEnv (inl sampleConfig) (Some "/root")
        (mkTime year month "2025-02-01T00:00:00Z")
        (Some (netDevOf rx tx)) (fun _ => writable) (Some 204).

Definition emptyDisk : Disk := fun _ => NotExist.

Definition freshWorld : World := mkWorld emptyDisk [] [].

Definition worldWith (stats : Stats) : World :=
  mkWorld (writeFile emptyDisk (StatsFile sampleConfig) stats) [] [].

(* ================================================================== *)
(** ** Further vocabulary for the properties *)
(* ================================================================== *)

Definition isDigit (c : ascii) : bool :=
  let b := Z.of_N (N_of_ascii c) in (48 <=? b) && (b <=? 57).

(** A string of decimal digits only. *)
Fixpoint isDigits (s : string) : bool :=
  match s with
  | EmptyString => true
  | String c s' => isDigit c && isDigits s'
  end.

(** The number a digit string writes, after the digits read so far made
    [acc]. *)
Fixpoint digitsFrom (s : string) (acc : Z) : Z :=
  match s with
  | EmptyString => acc
  | String c s' => digitsFrom s' (acc * 10 + (Z.of_N (N_of_ascii c) - 48))
  end.

Definition digitsValue (s : string) : Z := digitsFrom s 0.

(** The ASCII white space bytes. *)
Definition isAsciiSpace (c : ascii) : bool :=
  let a := N_of_ascii c in ((9 <=? a) && (a <=? 13) || (a =? 32))%N.

Fixpoint allChars (p : ascii -> bool) (s : string) : bool :=
  match s with
  | EmptyString => true
  | String c s' => p c && allChars p s'
  end.

(** [config] with another state file path. *)
Definition withStatsFile (config : Config) (path : string) : Config :=
  mkConfig (TimeZone config) (Interface config) path
           (WebhookURL config) (BotName config).

(** The entry is an error record. *)
Definition isErrorEntry (e : LogEntry) : bool :=
  match level e, attr e with
  | LevelError, Some _ => true
  | _, _ => false
  end.

(* ================================================================== *)
(** ** Proof automation *)
(* ================================================================== *)

(** Unfold one layer of the run monad and of the helpers of a run. *)
Ltac run_step :=
  cbv beta iota delta
    [bind ret getDisk loadStats saveStats slog slog_Error slog_Info slog_Warn
     os_Exit Scheduled.sendToDiscord http_Post negb].

(** Split a run of [SendMonthlyNetStats] into all its paths: every test
    the run makes is decided, and its equation is kept. *)
Ltac run_cases env w :=
  unfold Scheduled.SendMonthlyNetStats;
  destruct (readConfig env) as [?config | ?err] eqn:?Hconfig; run_step;
  [ destruct (disk w (StatsFile _)) as [ | | | ?stats] eqn:?Hdisk;
    try (destruct (readNetworkBytes (procNetDev env) (Interface _))
           as [[?currentRX ?currentTX] | ?err] eqn:?Hnet);
    run_step; cbn [Month RX TX];
    repeat match goal with
           | |- context [if String.eqb ?a ?b then _ else _] =>
               destruct (String.eqb a b) eqn:?Hmonth; run_step;
               cbn [Month RX TX]
           | |- context [if canWrite ?e ?p then _ else _] =>
               destruct (canWrite e p) eqn:?Hwrite; run_step;
               cbn [Month RX TX]; rewrite ?Z.sub_diag;
               change (0 <? 0) with false; cbn [orb]
           | |- context [if (?a <? 0) || (?b <? 0) then _ else _] =>
               destruct ((a <? 0) || (b <? 0)) eqn:?Hsign; run_step
           | |- context [match webhook ?e with _ => _ end] =>
               destruct (webhook e) as [?status | ] eqn:?Hhook
           | |- context [if ?s =? 204 then _ else _] =>
               destruct (s =? 204) eqn:?Hstatus
           end
  | ];
  cbn [fst snd disk logged outbox].

(** Turn the decided sign test of a run into inequalities. *)
Ltac sign_facts :=
  match goal with
  | H : (_ <? 0) || (_ <? 0) = false |- _ =>
      apply orb_false_iff in H; rewrite !Z.ltb_ge in H
  | H : (_ <? 0) || (_ <? 0) = true |- _ =>
      apply orb_true_iff in H; rewrite !Z.ltb_lt in H
  end.


(* ================================================================== *)
(** * Properties of the accounting run *)
(* ================================================================== *)

(** ** The month key *)

Lemma append_cons_not_empty (s t : string) (c : ascii) :
  String.eqb EmptyString (s ++ String c t) = false.
Proof. destruct s; reflexivity. Qed.

(** A month key is never the empty [Month] of the zero [Stats]. *)
Lemma monthKey_not_empty (t : Time) :
  String.eqb EmptyString (time.Format_2006_01 t) = false.
Proof. unfold time.Format_2006_01. apply append_cons_not_empty. Qed.

Lemma writeFile_same (d : Disk) (path : string) (stats : Stats) :
  writeFile d path stats path = Holds stats.
Proof. unfold writeFile. now rewrite String.eqb_refl. Qed.

Lemma writeFile_other (d : Disk) (path p : string) (stats : Stats) :
  p <> path -> writeFile d path stats p = d p.
Proof.
  intros Hp. unfold writeFile.
  destruct (String.eqb_spec p path); [contradiction | reflexivity].
Qed.

(** ** The paths of [SendMonthlyNetStats] *)

Section Paths.

Variables (env : Env) (w : World) (config : Config) (currentRX currentTX : Z).

Hypothesis Hconfig : readConfig env = inl config.
Hypothesis Hnet :
  readNetworkBytes (procNetDev env) (Interface config)
  = inl (currentRX, currentTX).

Lemma first_run_path :
  disk w (StatsFile config) = NotExist ->
  canWrite env (StatsFile config) = true ->
  Scheduled.SendMonthlyNetStats env w =
  (Returned Skip,
   mkWorld (writeFile (disk w) (StatsFile config)
                      (mkStats (monthKeyOf env) currentRX currentTX))
           ((logged w ++ [mkLogEntry LevelInfo "新しい月の記録を開始しました" None])
              ++ [mkLogEntry LevelInfo "初回起動のためDiscord通知をスキップします" None])
           (outbox w)).
Proof.
  intros Hdisk Hwrite.
  unfold Scheduled.SendMonthlyNetStats. rewrite Hconfig.
  run_step. rewrite Hdisk, Hnet. run_step.
  rewrite monthKey_not_empty. run_step. rewrite Hwrite. reflexivity.
Qed.

Lemma first_run_write_fails :
  disk w (StatsFile config) = NotExist ->
  canWrite env (StatsFile config) = false ->
  Scheduled.SendMonthlyNetStats env w =
  (Exited 1,
   mkWorld (disk w)
           (logged w ++ [mkLogEntry LevelError "統計ファイルの保存エラー"
                                    (Some WriteFileError)])
           (outbox w)).
Proof.
  intros Hdisk Hwrite.
  unfold Scheduled.SendMonthlyNetStats. rewrite Hconfig.
  run_step. rewrite Hdisk, Hnet. run_step.
  rewrite monthKey_not_empty. run_step. rewrite Hwrite.
  destruct w; reflexivity.
Qed.

Variable stats : Stats.
Hypothesis Hdisk : disk w (StatsFile config) = Holds stats.

Lemma rollover_path :
  String.eqb (Month stats) (monthKeyOf env) = false ->
  canWrite env (StatsFile config) = true ->
  let r := Scheduled.SendMonthlyNetStats env w in
  fst r = afterPost env (Report 0 0 0) /\
  disk (snd r) = writeFile (disk w) (StatsFile config)
                   (mkStats (monthKeyOf env) currentRX currentTX) /\
  outbox (snd r) = (outbox w ++ [requestFor env config 0 0])%list.
Proof.
  intros Hmonth Hwrite.
  unfold Scheduled.SendMonthlyNetStats, afterPost, requestFor, monthKeyOf in *.
  rewrite Hconfig.
  run_step. rewrite Hdisk, Hnet. run_step.
  rewrite Hmonth. run_step. rewrite Hwrite.
  cbv beta iota delta [RX TX]. rewrite !Z.sub_diag.
  change (0 <? 0) with false. cbv beta iota delta [orb].
  destruct (webhook env) as [status|]; [destruct (status =? 204)|];
    cbn [fst snd disk outbox]; auto.
Qed.

Lemma rollover_write_fails :
  String.eqb (Month stats) (monthKeyOf env) = false ->
  canWrite env (StatsFile config) = false ->
  Scheduled.SendMonthlyNetStats env w =
  (Exited 1,
   mkWorld (disk w)
           (logged w ++ [mkLogEntry LevelError "統計ファイルの保存エラー"
                                    (Some WriteFileError)])
           (outbox w)).
Proof.
  intros Hmonth Hwrite.
  unfold Scheduled.SendMonthlyNetStats, monthKeyOf in *. rewrite Hconfig.
  run_step. rewrite Hdisk, Hnet. run_step.
  rewrite Hmonth. run_step. rewrite Hwrite.
  destruct w; reflexivity.
Qed.

Lemma reset_path :
  String.eqb (Month stats) (monthKeyOf env) = true ->
  currentRX < RX stats \/ currentTX < TX stats ->
  Scheduled.SendMonthlyNetStats env w =
  (Returned ResetDetected,
   mkWorld (if canWrite env (StatsFile config)
            then writeFile (disk w) (StatsFile config)
                   (mkStats (monthKeyOf env) currentRX currentTX)
            else disk w)
           (logged w ++ [mkLogEntry LevelWarn
              "カウントリセットを検出したため、今月の集計をリセットしました" None])
           (outbox w)).
Proof.
  intros Hmonth Hlow.
  unfold Scheduled.SendMonthlyNetStats, monthKeyOf in *. rewrite Hconfig.
  run_step. rewrite Hdisk, Hnet. run_step.
  rewrite Hmonth. run_step.
  assert (Hneg : (currentRX - RX stats <? 0) || (currentTX - TX stats <? 0)
                 = true).
  { apply orb_true_iff. rewrite !Z.ltb_lt. lia. }
  rewrite Hneg.
  destruct (canWrite env (StatsFile config)); reflexivity.
Qed.

Lemma normal_path :
  String.eqb (Month stats) (monthKeyOf env) = true ->
  RX stats <= currentRX ->
  TX stats <= currentTX ->
  let usedRX := currentRX - RX stats in
  let usedTX := currentTX - TX stats in
  let r := Scheduled.SendMonthlyNetStats env w in
  fst r = afterPost env (Report usedRX usedTX (usedRX + usedTX)) /\
  disk (snd r) = disk w /\
  outbox (snd r) = (outbox w ++ [requestFor env config usedRX usedTX])%list.
Proof.
  intros Hmonth Hrx Htx.
  unfold Scheduled.SendMonthlyNetStats, afterPost, requestFor, monthKeyOf in *.
  rewrite Hconfig.
  run_step. rewrite Hdisk, Hnet. run_step.
  rewrite Hmonth. run_step.
  assert (Hneg : (currentRX - RX stats <? 0) || (currentTX - TX stats <? 0)
                 = false).
  { apply orb_false_iff. rewrite !Z.ltb_ge. lia. }
  rewrite Hneg.
  destruct (webhook env) as [status|]; [destruct (status =? 204)|];
    cbn [fst snd disk outbox]; auto.
Qed.

End Paths.

(** A run posts at most one notification, whatever it finds. *)
Lemma run_posts_at_most_once (env : Env) (w : World) :
  (notifications (snd (Scheduled.SendMonthlyNetStats env w))
   <= S (notifications w))%nat.
Proof.
  unfold Scheduled.SendMonthlyNetStats, notifications.
  destruct (readConfig env) as [config|err]; run_step; [|cbn; lia].
  destruct (disk w (StatsFile config)) as [| | |stats];
    try (cbn; lia);
    (destruct (readNetworkBytes (procNetDev env) (Interface config))
       as [[currentRX currentTX]|err]; [|cbn; lia]).
  - destruct (String.eqb _ (time.Format_2006_01 (now env)));
      run_step; [cbn; lia|].
    destruct (canWrite env (StatsFile config)); cbn; lia.
  - destruct (String.eqb _ (time.Format_2006_01 (now env)));
      run_step.
    + destruct ((currentRX - RX stats <? 0) || (currentTX - TX stats <? 0)).
      * destruct (canWrite env (StatsFile config)); cbn; lia.
      * destruct (webhook env) as [status|]; [destruct (status =? 204)|];
          cbn [snd outbox]; rewrite length_app; cbn; lia.
    + destruct (canWrite env (StatsFile config)); [|cbn; lia].
      cbv beta iota delta [RX TX].
      destruct ((currentRX - currentRX <? 0) || (currentTX - currentTX <? 0)).
      * cbn; lia.
      * destruct (webhook env) as [status|]; [destruct (status =? 204)|];
          cbn [snd outbox]; rewrite length_app; cbn; lia.
Qed.

(* ================================================================== *)
(** ** Claims about the accounting run *)
(* ================================================================== *)

(** C1, as the program behaves: a run that finds a stored state of another
    period writes a new state with the current period and the current
    counters as baseline; it then does not return [Skip] but goes on to
    post a notification that reports zero usage. *)
Theorem rollover_rebaselines_and_reports_zero
    (env : Env) (w : World) (config : Config) (stats : Stats)
    (currentRX currentTX : Z) :
  readConfig env = inl config ->
  readNetworkBytes (procNetDev env) (Interface config)
  = inl (currentRX, currentTX) ->
  disk w (StatsFile config) = Holds stats ->
  Month stats <> monthKeyOf env ->
  canWrite env (StatsFile config) = true ->
  let r := Scheduled.SendMonthlyNetStats env w in
  disk (snd r) (StatsFile config)
  = Holds (mkStats (monthKeyOf env) currentRX currentTX) /\
  fst r = afterPost env (Report 0 0 0) /\
  fst r <> Returned Skip /\
  outbox (snd r) = (outbox w ++ [requestFor env config 0 0])%list /\
  Scheduled.formatBytes 0 = "0.00 B".
Proof.
  intros Hconfig Hnet Hdisk Hmonth Hwrite r.
  apply String.eqb_neq in Hmonth.
  destruct (rollover_path env w config currentRX currentTX Hconfig Hnet
              stats Hdisk Hmonth Hwrite) as (Hout & Hd & Hbox).
  fold r in Hout, Hd, Hbox.
  repeat split; auto.
  - rewrite Hd. apply writeFile_same.
  - rewrite Hout. unfold afterPost.
    destruct (webhook env) as [status|]; [destruct (status =? 204)|];
      discriminate.
Qed.

Lemma rollover_rebaselines_and_reports_zero_witness :
  let env := sampleEnv 2025 2 "1500" "800" true in
  let w := worldWith (mkStats "2025-01" 1000 500) in
  let r := Scheduled.SendMonthlyNetStats env w in
  disk (snd r) (StatsFile sampleConfig) = Holds (mkStats "2025-02" 1500 800) /\
  fst r = Returned (Report 0 0 0) /\
  fst r <> Returned Skip /\
  outbox (snd r) = (outbox w ++ [requestFor env sampleConfig 0 0])%list /\
  Scheduled.formatBytes 0 = "0.00 B".
Proof.
  intros env w.
  apply (rollover_rebaselines_and_reports_zero env w sampleConfig
           (mkStats "2025-01" 1000 500) 1500 800);
    try reflexivity.
  vm_compute. discriminate.
Defined.

(** C1, counterexample: stored period 2025-01, current period 2025-02; the
    run does not return [Skip] and one notification is posted. *)
Lemma rollover_run_notifies :
  let env := sampleEnv 2025 2 "1500" "800" true in
  let w := worldWith (mkStats "2025-01" 1000 500) in
  let r := Scheduled.SendMonthlyNetStats env w in
  disk w (StatsFile sampleConfig) = Holds (mkStats "2025-01" 1000 500) /\
  monthKeyOf env = "2025-02" /\
  fst r = Returned (Report 0 0 0) /\
  fst r <> Returned Skip /\
  notifications w = 0%nat /\
  notifications (snd r) = 1%nat.
Proof.
  vm_compute. repeat split; try reflexivity. discriminate.
Qed.

Lemma fire_cons_returned (env : Env) (later : list Env) (w w1 w2 : World)
    (a : Action) (rest : list Action) :
  Scheduled.SendMonthlyNetStats env w = (Returned a, w1) ->
  Scheduled.fire later w1 = (Returned rest, w2) ->
  Scheduled.fire (env :: later) w = (Returned (a :: rest), w2).
Proof.
  intros Hrun Hfire. cbn [Scheduled.fire]. unfold bind.
  now rewrite Hrun, Hfire.
Qed.

(** C2, as the program behaves: notifications are not limited to one per
    period.  From a stored state, every invocation of the same period whose
    counters are not below the baseline posts one notification and leaves
    the state as it is, so [length envs] such invocations post
    [length envs] notifications; a single invocation never posts more than
    one. *)
Theorem same_period_runs_all_notify
    (config : Config) (stats : Stats) (envs : list Env) (w : World) :
  disk w (StatsFile config) = Holds stats ->
  Forall (SamePeriodNormal config stats) envs ->
  let r := Scheduled.fire envs w in
  (exists actions,
      fst r = Returned actions /\
      Forall isReport actions /\
      List.length actions = List.length envs) /\
  disk (snd r) = disk w /\
  notifications (snd r) = (notifications w + List.length envs)%nat /\
  (forall env' w',
      notifications (snd (Scheduled.SendMonthlyNetStats env' w'))
      <= S (notifications w'))%nat.
Proof.
  intros Hdisk Hall. revert w Hdisk.
  induction Hall as [|env later Henv Hlater IH]; intros w Hdisk r.
  - split; [|split; [|split]].
    + exists []. repeat split; constructor.
    + reflexivity.
    + unfold notifications. cbn. lia.
    + apply run_posts_at_most_once.
  - destruct Henv as (Hconfig & Hmonth & Hhook & rx & tx & Hnet & Hrx & Htx).
    assert (Heqb : String.eqb (Month stats) (monthKeyOf env) = true)
      by (apply String.eqb_eq; congruence).
    destruct (normal_path env w config rx tx Hconfig Hnet stats Hdisk
                Heqb Hrx Htx) as (Hout & Hd & Hbox).
    unfold afterPost in Hout. rewrite Hhook in Hout. cbn in Hout.
    destruct (Scheduled.SendMonthlyNetStats env w) as [o w1] eqn:Erun.
    cbn [fst snd] in Hout, Hd, Hbox. subst o.
    assert (Hdisk1 : disk w1 (StatsFile config) = Holds stats)
      by (rewrite Hd; exact Hdisk).
    destruct (IH w1 Hdisk1) as ((actions & Hacts & Hrep & Hlen) & Hd1 & Hn1 & _).
    destruct (Scheduled.fire later w1) as [o2 w2] eqn:Efire.
    cbn [fst snd] in Hacts, Hd1, Hn1. subst o2.
    subst r. rewrite (fire_cons_returned _ _ _ _ _ _ _ Erun Efire).
    cbn [fst snd].
    split; [|split; [|split]].
    + eexists. split; [reflexivity|]. split.
      * constructor; [exact I | exact Hrep].
      * cbn. now rewrite Hlen.
    + congruence.
    + rewrite Hn1. unfold notifications. rewrite Hbox, length_app. cbn. lia.
    + apply run_posts_at_most_once.
Qed.

Lemma same_period_runs_all_notify_witness :
  let env1 := sampleEnv 2025 1 "1500" "800" true in
  let env2 := sampleEnv 2025 1 "1600" "900" true in
  let w := worldWith (mkStats "2025-01" 1000 500) in
  let r := Scheduled.fire [env1; env2] w in
  (exists actions,
      fst r = Returned actions /\
      Forall isReport actions /\
      List.length actions = 2%nat) /\
  disk (snd r) = disk w /\
  notifications (snd r) = (notifications w + 2)%nat /\
  (forall env' w',
      notifications (snd (Scheduled.SendMonthlyNetStats env' w'))
      <= S (notifications w'))%nat.
Proof.
  intros env1 env2 w.
  apply (same_period_runs_all_notify sampleConfig
           (mkStats "2025-01" 1000 500) [env1; env2] w).
  - reflexivity.
  - repeat constructor.
    + exists 1500, 800. repeat split; try reflexivity; cbn; lia.
    + exists 1600, 900. repeat split; try reflexivity; cbn; lia.
Defined.

(** C2, counterexample: two invocations in the period 2025-01 and both
    post a notification. *)
Lemma two_runs_one_period_notify_twice :
  let env1 := sampleEnv 2025 1 "1500" "800" true in
  let env2 := sampleEnv 2025 1 "1600" "900" true in
  let w := worldWith (mkStats "2025-01" 1000 500) in
  let r := Scheduled.fire [env1; env2] w in
  monthKeyOf env1 = monthKeyOf env2 /\
  fst r = Returned [Report 500 300 800; Report 600 400 1000] /\
  notifications w = 0%nat /\
  notifications (snd r) = 2%nat.
Proof. vm_compute. repeat split; reflexivity. Qed.



(** C4: the first invocation, with no state file, returns [Skip], posts
    nothing and writes a state holding the current period and the current
    counters. *)
Theorem first_run_skips_and_baselines
    (env : Env) (w : World) (config : Config) (currentRX currentTX : Z) :
  readConfig env = inl config ->
  readNetworkBytes (procNetDev env) (Interface config)
  = inl (currentRX, currentTX) ->
  disk w (StatsFile config) = NotExist ->
  canWrite env (StatsFile config) = true ->
  let r := Scheduled.SendMonthlyNetStats env w in
  fst r = Returned Skip /\
  outbox (snd r) = outbox w /\
  disk (snd r) (StatsFile config)
  = Holds (mkStats (monthKeyOf env) currentRX currentTX).
Proof.
  intros Hconfig Hnet Hdisk Hwrite r. subst r.
  rewrite (first_run_path env w config currentRX currentTX Hconfig Hnet
             Hdisk Hwrite).
  cbn [fst snd outbox disk]. repeat split. apply writeFile_same.
Qed.

Lemma first_run_skips_and_baselines_witness :
  let env := sampleEnv 2025 2 "1500" "800" true in
  let r := Scheduled.SendMonthlyNetStats env freshWorld in
  fst r = Returned Skip /\
  outbox (snd r) = outbox freshWorld /\
  disk (snd r) (StatsFile sampleConfig) = Holds (mkStats "2025-02" 1500 800).
Proof.
  intros env.
  apply (first_run_skips_and_baselines env freshWorld sampleConfig 1500 800);
    reflexivity.
Defined.

(** C5: on the normal accounting path no state file is written: the disk
    after the run is the disk before it. *)
Theorem normal_run_keeps_state
    (env : Env) (w : World) (config : Config) (stats : Stats)
    (currentRX currentTX : Z) :
  readConfig env = inl config ->
  readNetworkBytes (procNetDev env) (Interface config)
  = inl (currentRX, currentTX) ->
  disk w (StatsFile config) = Holds stats ->
  Month stats = monthKeyOf env ->
  RX stats <= currentRX ->
  TX stats <= currentTX ->
  let r := Scheduled.SendMonthlyNetStats env w in
  disk (snd r) = disk w /\
  disk (snd r) (StatsFile config) = Holds stats.
Proof.
  intros Hconfig Hnet Hdisk Hmonth Hrx Htx r.
  assert (Heqb : String.eqb (Month stats) (monthKeyOf env) = true)
    by (apply String.eqb_eq; exact Hmonth).
  destruct (normal_path env w config currentRX currentTX Hconfig Hnet
              stats Hdisk Heqb Hrx Htx) as (_ & Hd & _).
  fold r in Hd. split; [exact Hd | now rewrite Hd].
Qed.

Lemma normal_run_keeps_state_witness :
  let env := sampleEnv 2025 1 "1500" "800" true in
  let w := worldWith (mkStats "2025-01" 1000 500) in
  let r := Scheduled.SendMonthlyNetStats env w in
  disk (snd r) = disk w /\
  disk (snd r) (StatsFile sampleConfig) = Holds (mkStats "2025-01" 1000 500).
Proof.
  intros env w.
  apply (normal_run_keeps_state env w sampleConfig
           (mkStats "2025-01" 1000 500) 1500 800);
    try reflexivity; cbn; lia.
Defined.

(** A failed write of the new baseline, on the first run and on a
    rollover, ends the process with status 1 before anything is posted. *)
Lemma rebaseline_write_failure_fatal
    (env : Env) (w : World) (config : Config) (currentRX currentTX : Z) :
  readConfig env = inl config ->
  readNetworkBytes (procNetDev env) (Interface config)
  = inl (currentRX, currentTX) ->
  disk w (StatsFile config) = NotExist \/
  (exists stats, disk w (StatsFile config) = Holds stats /\
                 Month stats <> monthKeyOf env) ->
  canWrite env (StatsFile config) = false ->
  let r := Scheduled.SendMonthlyNetStats env w in
  fst r = Exited 1 /\ outbox (snd r) = outbox w /\ disk (snd r) = disk w.
Proof.
  intros Hconfig Hnet [Hdisk | (stats & Hdisk & Hmonth)] Hwrite r; subst r.
  - now rewrite (first_run_write_fails env w config currentRX currentTX
                   Hconfig Hnet Hdisk Hwrite).
  - apply String.eqb_neq in Hmonth.
    now rewrite (rollover_write_fails env w config currentRX currentTX
                   Hconfig Hnet stats Hdisk Hmonth Hwrite).
Qed.



(** C8: after a rollover or a counter reset has written its state, a second
    run with the same counters in the same period reports zero usage. *)
Theorem rerun_after_rebaseline_reports_zero
    (env env' : Env) (w : World) (config : Config) (stats : Stats)
    (currentRX currentTX : Z) :
  readConfig env = inl config ->
  readNetworkBytes (procNetDev env) (Interface config)
  = inl (currentRX, currentTX) ->
  disk w (StatsFile config) = Holds stats ->
  Month stats <> monthKeyOf env \/
  (Month stats = monthKeyOf env /\
   (currentRX < RX stats \/ currentTX < TX stats)) ->
  canWrite env (StatsFile config) = true ->
  readConfig env' = inl config ->
  readNetworkBytes (procNetDev env') (Interface config)
  = inl (currentRX, currentTX) ->
  monthKeyOf env' = monthKeyOf env ->
  let w1 := snd (Scheduled.SendMonthlyNetStats env w) in
  let r := Scheduled.SendMonthlyNetStats env' w1 in
  disk w1 (StatsFile config)
  = Holds (mkStats (monthKeyOf env) currentRX currentTX) /\
  fst r = afterPost env' (Report 0 0 0) /\
  (webhook env' = Some 204 -> fst r = Returned (Report 0 0 0)) /\
  outbox (snd r) = (outbox w1 ++ [requestFor env' config 0 0])%list /\
  disk (snd r) = disk w1.
Proof.
  intros Hconfig Hnet Hdisk Hcase Hwrite Hconfig' Hnet' Hperiod w1 r.
  assert (Hw1 : disk w1 (StatsFile config)
                = Holds (mkStats (monthKeyOf env) currentRX currentTX)).
  { subst w1. destruct Hcase as [Hmonth | (Hmonth & Hlow)].
    - apply String.eqb_neq in Hmonth.
      destruct (rollover_path env w config currentRX currentTX Hconfig Hnet
                  stats Hdisk Hmonth Hwrite) as (_ & Hd & _).
      rewrite Hd. apply writeFile_same.
    - apply String.eqb_eq in Hmonth.
      rewrite (reset_path env w config currentRX currentTX Hconfig Hnet
                 stats Hdisk Hmonth Hlow).
      cbn [snd disk]. rewrite Hwrite. apply writeFile_same. }
  assert (Heqb : String.eqb (Month (mkStats (monthKeyOf env) currentRX currentTX))
                            (monthKeyOf env') = true)
    by (apply String.eqb_eq; cbn [Month]; congruence).
  destruct (normal_path env' w1 config currentRX currentTX Hconfig' Hnet'
              _ Hw1 Heqb (Z.le_refl _) (Z.le_refl _)) as (Hout & Hd & Hbox).
  cbn [RX TX] in Hout, Hbox. rewrite !Z.sub_diag in Hout, Hbox.
  fold r in Hout, Hd, Hbox.
  repeat split; auto.
  intros Hhook. rewrite Hout. unfold afterPost. now rewrite Hhook.
Qed.

Lemma rerun_after_rebaseline_reports_zero_witness :
  let env := sampleEnv 2025 1 "100" "900" true in
  let w := worldWith (mkStats "2025-01" 900 900) in
  let w1 := snd (Scheduled.SendMonthlyNetStats env w) in
  let r := Scheduled.SendMonthlyNetStats env w1 in
  disk w1 (StatsFile sampleConfig) = Holds (mkStats "2025-01" 100 900) /\
  fst r = afterPost env (Report 0 0 0) /\
  (webhook env = Some 204 -> fst r = Returned (Report 0 0 0)) /\
  outbox (snd r) = (outbox w1 ++ [requestFor env sampleConfig 0 0])%list /\
  disk (snd r) = disk w1.
Proof.
  intros env w.
  apply (rerun_after_rebaseline_reports_zero env env w sampleConfig
           (mkStats "2025-01" 900 900) 100 900);
    try reflexivity.
  right. split; [reflexivity | left; cbn; lia].
Defined.



(** The scenario of the specification: baseline (1000, 500), counters
    (1500, 800) in the same period. *)
Example scenario_report_500_300_800 :
  fst (Scheduled.SendMonthlyNetStats
         (sampleEnv 2025 1 "1500" "800" true)
         (worldWith (mkStats "2025-01" 1000 500)))
  = Returned (Report 500 300 800).
Proof. reflexivity. Qed.

(** The process from its start: no state file at boot, then the monthly
    job fires on the first of March and of April.  The boot run skips, and
    each firing finds the state of the month before and reports zero. *)
Example main_boot_then_two_firings :
  fst (Scheduled.main
         (Scheduled.mkBoot (sampleEnv 2025 2 "1500" "800" true) false false)
         [sampleEnv 2025 3 "2500" "900" true;
          sampleEnv 2025 4 "9500" "1900" true]
         freshWorld)
  = Returned [Skip; Report 0 0 0; Report 0 0 0].
Proof. reflexivity. Qed.

(* ================================================================== *)
(** ** The counter source *)
(* ================================================================== *)

Lemma HasPrefix_app (s prefix : string) :
  strings.HasPrefix s prefix = true <-> exists post, s = prefix ++ post.
Proof.
  revert s. induction prefix as [|p prefix IH]; intros s; cbn.
  - split; [intros _; now exists s | reflexivity].
  - destruct s as [|c s]; cbn.
    + split; [discriminate | intros (post & H); discriminate].
    + rewrite andb_true_iff, IH. split.
      * intros (Hc & post & ->). apply Ascii.eqb_eq in Hc. subst.
        now exists post.
      * intros (post & H). injection H as -> ->.
        split; [apply Ascii.eqb_refl | now exists post].
Qed.

(** [strings.Contains] is the substring test. *)
Lemma Contains_substring (s substr : string) :
  strings.Contains s substr = true <->
  exists pre post, s = pre ++ substr ++ post.
Proof.
  induction s as [|c s IH]; cbn [strings.Contains];
    rewrite orb_true_iff, HasPrefix_app.
  - split.
    + intros [(post & H) | H]; [|discriminate].
      now exists EmptyString, post.
    + intros (pre & post & H). left.
      destruct pre; [now exists post | discriminate].
  - rewrite IH. split.
    + intros [(post & H) | (pre & post & H)].
      * now exists EmptyString, post.
      * exists (String c pre), post. cbn. now rewrite H.
    + intros (pre & post & H). destruct pre as [|c' pre]; cbn in H.
      * left. now exists post.
      * right. injection H as _ ->. now exists pre, post.
Qed.

Lemma scanLines_find (interfaceName : string) (lines : list string) :
  scanLines interfaceName lines =
  match find (entryFor interfaceName) lines with
  | Some line => countersOf line
  | None => inr (InterfaceNotFound interfaceName)
  end.
Proof.
  induction lines as [|line rest IH]; cbn [scanLines find]; [reflexivity|].
  unfold entryFor at 1.
  destruct (strings.Contains line interfaceName); cbn [andb]; [|exact IH].
  rewrite Nat.ltb_antisym.
  destruct (10 <=? List.length (strings.Fields line))%nat; cbn [negb];
    [reflexivity | exact IH].
Qed.

Lemma countersOf_found (interfaceName line : string) :
  countersOf line <> inr (InterfaceNotFound interfaceName).
Proof.
  unfold countersOf.
  destruct (strconv.ParseInt (nth 1 (strings.Fields line) EmptyString));
    [|discriminate].
  destruct (strconv.ParseInt (nth 9 (strings.Fields line) EmptyString));
    discriminate.
Qed.

(** C10: the lookup answers from the first line that contains the name as a
    substring and has at least ten fields, with the counters parsed from
    the second and tenth field of that line; "not found" is returned
    exactly when there is no such line; an interface whose name merely
    contains the requested name is read when its line comes first. *)
Theorem readNetworkBytes_first_matching_line
    (interfaceName data : string) :
  let lines := strings.Split data newline in
  let result := readNetworkBytes (Some data) interfaceName in
  match find (entryFor interfaceName) lines with
  | Some line => result = countersOf line
  | None => result = inr (InterfaceNotFound interfaceName)
  end /\
  (result = inr (InterfaceNotFound interfaceName) <->
   forall line, In line lines -> entryFor interfaceName line = false) /\
  (forall line,
      entryFor interfaceName line = true <->
      (exists pre post, line = pre ++ interfaceName ++ post) /\
      (10 <= List.length (strings.Fields line))%nat) /\
  readNetworkBytes (Some netDevShadowed) "eth0" = inl (111, 222) /\
  readNetworkBytes (Some netDevShadowed) "veth0" = inl (111, 222).
Proof.
  intros lines result. subst result. unfold readNetworkBytes. fold lines.
  rewrite scanLines_find.
  split; [|split; [|split; [|split]]].
  - destruct (find (entryFor interfaceName) lines); reflexivity.
  - destruct (find (entryFor interfaceName) lines) as [line|] eqn:Hfind.
    + split.
      * intros H. now apply countersOf_found in H.
      * intros Hnone. apply find_some in Hfind. destruct Hfind as (Hin & Hok).
        rewrite (Hnone line Hin) in Hok. discriminate.
    + split; [|reflexivity].
      intros _ line Hin.
      destruct (entryFor interfaceName line) eqn:Hentry; [|reflexivity].
      now rewrite (find_none _ _ Hfind line Hin) in Hentry.
  - intros line. unfold entryFor.
    now rewrite andb_true_iff, Contains_substring, Nat.leb_le.
  - reflexivity.
  - reflexivity.
Qed.

(* ================================================================== *)
(** ** The byte formatter *)
(* ================================================================== *)

(** Counts below 2^53 are float64 values. *)
Lemma roundBits_small (m : Z) :
  0 <= m < 2 ^ 53 -> roundBits 53 m = m.
Proof.
  intros [Hlo Hhi]. unfold roundBits.
  assert (Hlog : Z.log2 m < 53).
  { destruct (Z.eq_dec m 0) as [-> | Hne]; [cbn; lia|].
    apply Z.log2_lt_pow2; lia. }
  destruct (Z.leb_spec (Z.log2 m + 1 - 53) 0); [reflexivity | lia].
Qed.

Lemma toFloat64_small (n s : Z) :
  0 <= n < 2 ^ 53 -> 0 <= s ->
  toFloat64 (mkDyadic n s) = Finite (mkDyadic n s).
Proof.
  intros Hn Hs. unfold toFloat64. cbn [mant scale].
  rewrite Z.abs_eq by lia. rewrite roundBits_small by exact Hn.
  assert (Hpow : 2 ^ 53 <= 2 ^ (1024 + s))
    by (apply Z.pow_le_mono_r; lia).
  destruct (Z.geb_spec n (2 ^ (1024 + s))); [lia|].
  f_equal. f_equal.
  destruct (Z.eq_dec n 0) as [-> | Hne]; [reflexivity|].
  rewrite Z.sgn_pos by lia. lia.
Qed.


Lemma Cmp_1024 (n s : Z) :
  (big.Cmp (mkDyadic n s) big.NewFloat_1024 =? -1) = (n <? 1024 * 2 ^ s).
Proof.
  unfold big.Cmp, big.NewFloat_1024. cbn [mant scale].
  rewrite Z.pow_0_r, Z.mul_1_r.
  destruct (Z.compare_spec n (1024 * 2 ^ s)) as [Heq | Hlt | Hgt];
    destruct (Z.ltb_spec n (1024 * 2 ^ s)); cbn; lia || reflexivity.
Qed.







(* ================================================================== *)
(** ** The one-shot program *)
(* ================================================================== *)

(** From 2^53 on, rounding to 53 bits stays at or above 2^53 and at most
    doubles the value. *)
Lemma roundBits_large (m : Z) :
  2 ^ 53 <= m -> 2 ^ 53 <= roundBits 53 m <= 2 * m.
Proof.
  intros Hm. unfold roundBits.
  assert (Hpos : 0 < m) by lia.
  pose proof (Z.log2_spec m Hpos) as [Hlo Hhi].
  assert (HL : 53 <= Z.log2 m).
  { apply Z.log2_le_pow2; lia. }
  set (L := Z.log2 m) in *.
  replace (L + 1 - 53) with (L - 52) by lia.
  set (d := L - 52).
  assert (Hd : 1 <= d) by (subst d; lia).
  destruct (Z.leb_spec d 0); [lia|].
  rewrite Z.shiftr_div_pow2 by lia.
  set (q := m / 2 ^ d).
  assert (H2d : 2 <= 2 ^ d).
  { change 2 with (2 ^ 1) at 1. apply Z.pow_le_mono_r; lia. }
  assert (HLd : 2 ^ L = 2 ^ 52 * 2 ^ d).
  { rewrite <- Z.pow_add_r by lia. f_equal. subst d. lia. }
  assert (Hq : 2 ^ 52 <= q).
  { subst q. apply Z.div_le_lower_bound; lia. }
  assert (Hqm : q * 2 ^ d <= m).
  { subst q. rewrite Z.mul_comm. apply Z.mul_div_le. lia. }
  assert (Hdm : 2 ^ d <= m) by nia.
  match goal with
  | |- context [if ?c then q + 1 else q] => destruct c
  end; rewrite Z.shiftl_mul_pow2 by lia; nia.
Qed.

Lemma roundBits_int64 (m : Z) :
  0 <= m <= 2 ^ 63 -> 0 <= roundBits 53 m <= 2 ^ 64.
Proof.
  intros Hm. destruct (Z.lt_ge_cases m (2 ^ 53)) as [Hsmall | Hlarge].
  - rewrite roundBits_small by lia. lia.
  - pose proof (roundBits_large m Hlarge). lia.
Qed.

(** The float64 of an int64 is below a power of two up to 2^50 exactly when
    the integer is. *)
Lemma lt_1024_float64 (n s : Z) :
  0 <= s <= 40 ->
  OneShot.lt_1024
    (Finite (mkDyadic (Z.sgn n * roundBits 53 (Z.abs n)) s))
  = (n <? 1024 * 2 ^ s).
Proof.
  intros Hs. cbn [OneShot.lt_1024 mant scale].
  assert (Hpos2 : 0 < 2 ^ s) by (apply Z.pow_pos_nonneg; lia).
  assert (Hpow : 2 ^ s <= 2 ^ 40) by (apply Z.pow_le_mono_r; lia).
  destruct (Z.lt_trichotomy n 0) as [Hneg | [-> | Hpos]].
  - rewrite Z.sgn_neg by lia.
    assert (0 <= roundBits 53 (Z.abs n)).
    { destruct (Z.lt_ge_cases (Z.abs n) (2 ^ 53)).
      - rewrite roundBits_small by lia. lia.
      - pose proof (roundBits_large (Z.abs n)). lia. }
    destruct (Z.ltb_spec (-1 * roundBits 53 (Z.abs n)) (1024 * 2 ^ s));
      destruct (Z.ltb_spec n (1024 * 2 ^ s)); lia || reflexivity.
  - reflexivity.
  - rewrite Z.sgn_pos, Z.abs_eq, Z.mul_1_l by lia.
    destruct (Z.lt_ge_cases n (2 ^ 53)) as [Hsmall | Hlarge].
    + now rewrite roundBits_small by lia.
    + pose proof (roundBits_large n Hlarge).
      destruct (Z.ltb_spec (roundBits 53 n) (1024 * 2 ^ s));
        destruct (Z.ltb_spec n (1024 * 2 ^ s)); lia || reflexivity.
Qed.

Lemma formatLoop_agree (units : list string) (n s : Z) :
  - 2 ^ 63 <= n < 2 ^ 63 ->
  0 <= s -> s + 10 * Z.of_nat (List.length units) <= 50 ->
  OneShot.formatLoop units
    (Finite (mkDyadic (Z.sgn n * roundBits 53 (Z.abs n)) s))
  = Scheduled.formatLoop units (mkDyadic n s).
Proof.
  intros Hn. revert s.
  induction units as [|unit units IH]; intros s Hs Hlen;
    cbn [OneShot.formatLoop Scheduled.formatLoop].
  - unfold big.Float64, toFloat64. cbn [mant scale].
    pose proof (roundBits_int64 (Z.abs n) ltac:(lia)) as Hround.
    assert (Hpow : 2 ^ 64 < 2 ^ (1024 + s))
      by (apply Z.pow_lt_mono_r; lia).
    destruct (Z.geb_spec (roundBits 53 (Z.abs n)) (2 ^ (1024 + s)));
      [lia | reflexivity].
  - cbn [List.length] in Hlen.
    rewrite Cmp_1024, lt_1024_float64 by lia.
    destruct (n <? 1024 * 2 ^ s).
    + unfold big.Float64, toFloat64. cbn [mant scale].
      pose proof (roundBits_int64 (Z.abs n) ltac:(lia)) as Hround.
      assert (Hpow : 2 ^ 64 < 2 ^ (1024 + s))
        by (apply Z.pow_lt_mono_r; lia).
      destruct (Z.geb_spec (roundBits 53 (Z.abs n)) (2 ^ (1024 + s)));
        [lia | reflexivity].
    + cbn [OneShot.div_1024 mant scale]. unfold big.Quo_1024.
      cbn [mant scale]. apply IH; lia.
Qed.

(** X22: on int64 counts the float64 formatter of main.go prints what the
    big.Float formatter of the scheduled program prints. *)
Lemma OneShot_formatBytes_agrees (n : Z) :
  - 2 ^ 63 <= n < 2 ^ 63 ->
  OneShot.formatBytes n = Scheduled.formatBytes n.
Proof.
  intros Hn. unfold OneShot.formatBytes, Scheduled.formatBytes, big.SetInt.
  rewrite <- (formatLoop_agree _ n 0) by (cbn; lia).
  unfold toFloat64. cbn [mant scale].
  pose proof (roundBits_int64 (Z.abs n) ltac:(lia)) as Hround.
  destruct (Z.geb_spec (roundBits 53 (Z.abs n)) (2 ^ (1024 + 0)));
    [cbn in *; lia | reflexivity].
Qed.

(** main.go on a rollover: the same zero report as the scheduled
    program. *)
Example OneShot_rollover_reports_zero :
  fst (OneShot.main (sampleEnv 2025 2 "1500" "800" true)
                    (worldWith (mkStats "2025-01" 1000 500)))
  = Returned (Report 0 0 0).
Proof. reflexivity. Qed.

(** main.go has no counter-reset check: a counter below its baseline is
    reported as negative usage. *)
Example OneShot_reports_negative_usage :
  let r := OneShot.main (sampleEnv 2025 1 "100" "900" true)
                        (worldWith (mkStats "2025-01" 900 900)) in
  fst r = Returned (Report (-800) 0 (-800)) /\
  map (fun q => map Value (flat_map Fields (Embeds (body q))))
      (outbox (snd r))
  = [["-800.00 B"; "0.00 B"; "-800.00 B"]].
Proof. vm_compute. split; reflexivity. Qed.

(** main.go adds the two differences in int64: at 2^62 bytes each way the
    total wraps around. *)
Example OneShot_total_wraps :
  fst (OneShot.main
         (sampleEnv 2025 1 "4611686018427387904" "4611686018427387904" true)
         (worldWith (mkStats "2025-01" 0 0)))
  = Returned (Report (2 ^ 62) (2 ^ 62) (- 2 ^ 63)).
Proof. vm_compute. reflexivity. Qed.

Lemma parseUintLoop_nonneg (s : string) (n un : Z) :
  0 <= n -> strconv.parseUintLoop s n = inl un -> 0 <= un.
Proof.
  revert n. induction s as [|c s IH]; intros n Hn; cbn [strconv.parseUintLoop].
  - intros H. injection H as <-. exact Hn.
  - set (b := Z.of_N (N_of_ascii c)).
    destruct ((48 <=? b) && (b <=? 57)) eqn:Hdigit; [|discriminate].
    apply andb_true_iff in Hdigit. rewrite !Z.leb_le in Hdigit.
    destruct (n >=? strconv.maxUint64 / 10 + 1); [discriminate|].
    destruct (n * 10 + (b - 48) >? strconv.maxUint64); [discriminate|].
    apply IH. lia.
Qed.

(** What [ParseInt] returns fits an int64. *)
Lemma ParseInt_int64 (s : string) (z : Z) :
  strconv.ParseInt s = inl z -> - 2 ^ 63 <= z < 2 ^ 63.
Proof.
  unfold strconv.ParseInt. destruct s as [|c0 rest]; [discriminate|].
  set (digits := if (Ascii.eqb c0 "+" || Ascii.eqb c0 "-")%bool
                 then rest else String c0 rest).
  destruct (strconv.ParseUint digits) as [un|[|]] eqn:Hun; try discriminate.
  assert (Hnonneg : 0 <= un).
  { unfold strconv.ParseUint in Hun. destruct digits; [discriminate|].
    eapply parseUintLoop_nonneg; [|exact Hun]. lia. }
  destruct (Ascii.eqb c0 "-"); cbn [negb andb].
  - destruct (Z.gtb_spec un (2 ^ 63)) as [Hgt | Hle]; [discriminate|].
    intros Hz. injection Hz as <-. lia.
  - destruct (Z.geb_spec un (2 ^ 63)) as [Hge | Hlt]; [discriminate|].
    intros Hz. injection Hz as <-. lia.
Qed.

(** The counters read from the statistics text are int64 values. *)
Lemma readNetworkBytes_int64
    (procNetDev : option string) (interfaceName : string) (rx tx : Z) :
  readNetworkBytes procNetDev interfaceName = inl (rx, tx) ->
  (- 2 ^ 63 <= rx < 2 ^ 63) /\ (- 2 ^ 63 <= tx < 2 ^ 63).
Proof.
  unfold readNetworkBytes. destruct procNetDev as [data|]; [|discriminate].
  rewrite scanLines_find.
  destruct (find (entryFor interfaceName) (strings.Split data newline))
    as [line|]; [|discriminate].
  unfold countersOf.
  destruct (strconv.ParseInt (nth 1 (strings.Fields line) EmptyString))
    as [rxBytes|] eqn:Hrx; [|discriminate].
  destruct (strconv.ParseInt (nth 9 (strings.Fields line) EmptyString))
    as [txBytes|] eqn:Htx; [|discriminate].
  intros H. injection H as <- <-.
  split; eapply ParseInt_int64; eassumption.
Qed.

Lemma wrap64_id (z : Z) :
  - 2 ^ 63 <= z < 2 ^ 63 -> OneShot.wrap64 z = z.
Proof.
  intros Hz. unfold OneShot.wrap64.
  rewrite Z.mod_small by lia. lia.
Qed.

(** main.go on the normal path: the same exact usage values as the
    scheduled program, as long as the baseline is non-negative and the
    total stays below 2^63. *)
Lemma OneShot_normal_path
    (env : Env) (w : World) (config : Config) (stats : Stats)
    (currentRX currentTX : Z) :
  readConfig env = inl config ->
  readNetworkBytes (procNetDev env) (Interface config)
  = inl (currentRX, currentTX) ->
  disk w (StatsFile config) = Holds stats ->
  Month stats = monthKeyOf env ->
  0 <= RX stats <= currentRX ->
  0 <= TX stats <= currentTX ->
  currentRX - RX stats + (currentTX - TX stats) < 2 ^ 63 ->
  let usedRX := currentRX - RX stats in
  let usedTX := currentTX - TX stats in
  let r := OneShot.main env w in
  fst r = afterPost env (Report usedRX usedTX (usedRX + usedTX)) /\
  disk (snd r) = disk w.
Proof.
  intros Hconfig Hnet Hdisk Hmonth Hrx Htx Htotal usedRX usedTX r.
  apply String.eqb_eq in Hmonth.
  destruct (readNetworkBytes_int64 _ _ _ _ Hnet) as [Hrx64 Htx64].
  subst r usedRX usedTX.
  unfold OneShot.main, OneShot.loadStats, OneShot.sendToDiscord, afterPost,
    monthKeyOf in *.
  rewrite Hconfig. run_step. rewrite Hdisk.
  assert (Hfit : OneShot.isInt64 (RX stats) && OneShot.isInt64 (TX stats)
                 = true).
  { unfold OneShot.isInt64. rewrite !andb_true_iff, !Z.leb_le, !Z.ltb_lt.
    lia. }
  rewrite Hfit, Hnet. run_step. rewrite Hmonth. run_step.
  rewrite (wrap64_id (currentRX - RX stats)) by lia.
  rewrite (wrap64_id (currentTX - TX stats)) by lia.
  rewrite wrap64_id by lia.
  destruct (webhook env) as [status|]; [destruct (status =? 204)|];
    cbn [fst snd disk]; auto.
Qed.

(* ================================================================== *)
(** * Further properties of the code *)
(* ================================================================== *)

(** ** Configuration and state file *)

(** [readConfig] written with the calls of the source. *)
Lemma readConfig_source_form (env : Env) (config : Config) :
  configJSON env = inl config ->
  readConfig env =
    (if strings.HasPrefix (StatsFile config) "~" then
       match homeDir env with
       | None => inr ReadFileError
       | Some home =>
           inl (withStatsFile config
                  (strings.Replace_1 (StatsFile config) "~" home))
       end
     else inl config).
Proof.
  intros Hjson. unfold readConfig. rewrite Hjson.
  destruct (StatsFile config) as [|c rest]; [reflexivity|].
  destruct c as [[|] [|] [|] [|] [|] [|] [|] [|]]; reflexivity.
Qed.

(** X1: [readConfig] does what the calls of the source say: when
    [stats_file] starts with a tilde, its first tilde (the leading one) is
    replaced by the home directory, and only it; every other option comes
    back as read. *)
Theorem readConfig_expands_leading_tilde (env : Env) (config : Config) :
  configJSON env = inl config ->
  readConfig env =
    (if strings.HasPrefix (StatsFile config) "~" then
       match homeDir env with
       | None => inr ReadFileError
       | Some home =>
           inl (withStatsFile config
                  (strings.Replace_1 (StatsFile config) "~" home))
       end
     else inl config) /\
  (forall config',
      readConfig env = inl config' ->
      TimeZone config' = TimeZone config /\
      Interface config' = Interface config /\
      WebhookURL config' = WebhookURL config /\
      BotName config' = BotName config) /\
  (forall rest home,
      StatsFile config = "~" ++ rest ->
      homeDir env = Some home ->
      readConfig env = inl (withStatsFile config (home ++ rest))).
Proof.
  intros Hjson.
  pose proof (readConfig_source_form env config Hjson) as Hsrc.
  split; [exact Hsrc | split].
  - intros config'. rewrite Hsrc.
    destruct (strings.HasPrefix (StatsFile config) "~").
    + destruct (homeDir env); [|discriminate].
      intros H. injection H as <-. cbn. auto.
    + intros H. injection H as <-. auto.
  - intros rest home Hfile Hhome. unfold readConfig.
    rewrite Hjson, Hfile, Hhome. reflexivity.
Qed.

Lemma readConfig_expands_leading_tilde_witness :
  let env := mkEnv (inl (mkConfig "UTC" "eth0" "~/traffic/~stats.json"
                                  "https://discord.example/hook" "bot"))
                   (Some "/home/net") (mkTime 2025 1 "") None
                   (fun _ => true) None in
  readConfig env
  = inl (mkConfig "UTC" "eth0" "/home/net/traffic/~stats.json"
                  "https://discord.example/hook" "bot").
Proof.
  intros env.
  destruct (readConfig_expands_leading_tilde env
              (mkConfig "UTC" "eth0" "~/traffic/~stats.json"
                        "https://discord.example/hook" "bot")
              eq_refl) as (_ & _ & Htilde).
  exact (Htilde "/traffic/~stats.json" "/home/net" eq_refl eq_refl).
Defined.

(** X2: [readConfig] fails exactly when config.json could not be read or
    parsed, or when [stats_file] starts with a tilde and the home directory
    is unknown; without a leading tilde the home directory is never asked
    for. *)
Theorem readConfig_fails_iff (env : Env) :
  (exists err, readConfig env = inr err) <->
  (exists err, configJSON env = inr err) \/
  (exists config,
      configJSON env = inl config /\
      strings.HasPrefix (StatsFile config) "~" = true /\
      homeDir env = None).
Proof.
  destruct (configJSON env) as [config|err0] eqn:Hjson.
  - rewrite (readConfig_source_form env config Hjson).
    destruct (strings.HasPrefix (StatsFile config) "~") eqn:Hprefix.
    + destruct (homeDir env) as [home|] eqn:Hhome.
      * split.
        -- intros (err & H). discriminate.
        -- intros [(err & H) | (c & Hc & _ & Hnone)]; discriminate.
      * split.
        -- intros _. right. exists config. auto.
        -- intros _. now exists ReadFileError.
    + split.
      * intros (err & H). discriminate.
      * intros [(err & H) | (c & Hc & Hp & _)]; [discriminate|].
        injection Hc as <-. congruence.
  - unfold readConfig. rewrite Hjson. split.
    + intros _. left. now exists err0.
    + intros _. now exists err0.
Qed.



(** ** Splitting the statistics text *)

Lemma string_app_nil_r (s : string) : s ++ EmptyString = s.
Proof. induction s as [|c s IH]; cbn; [reflexivity | now rewrite IH]. Qed.

Lemma string_app_assoc (s t u : string) : (s ++ t) ++ u = s ++ (t ++ u).
Proof. induction s as [|c s IH]; cbn; [reflexivity | now rewrite IH]. Qed.

Lemma allChars_app (p : ascii -> bool) (s t : string) :
  allChars p (s ++ t) = allChars p s && allChars p t.
Proof.
  induction s as [|c s IH]; cbn; [reflexivity|].
  now rewrite IH, andb_assoc.
Qed.

Lemma spaceLen_zero_not_space (c : ascii) (s : string) :
  strings.spaceLen (String c s) = 0%nat -> isAsciiSpace c = false.
Proof.
  unfold strings.spaceLen, strings.byte, isAsciiSpace.
  destruct ((9 <=? N_of_ascii c) && (N_of_ascii c <=? 13)
            || (N_of_ascii c =? 32))%N; [discriminate | reflexivity].
Qed.

Lemma fieldsFrom_fields (s : string) (skip : nat) (cur f : string) :
  allChars (fun c => negb (isAsciiSpace c)) cur = true ->
  In f (strings.fieldsFrom s skip cur) ->
  f <> EmptyString /\ allChars (fun c => negb (isAsciiSpace c)) f = true.
Proof.
  revert skip cur.
  induction s as [|c s IH]; intros skip cur Hcur; cbn [strings.fieldsFrom].
  - destruct cur; cbn; [tauto|].
    intros [<- | []]. split; [discriminate | exact Hcur].
  - destruct skip as [|k]; [|now apply IH].
    destruct (strings.spaceLen (String c s)) as [|k] eqn:Hlen.
    + apply IH. rewrite allChars_app, Hcur. cbn.
      now rewrite (spaceLen_zero_not_space c s Hlen).
    + intros Hin. apply in_app_or in Hin. destruct Hin as [Hin | Hin].
      * destruct cur; cbn in Hin; [tauto|].
        destruct Hin as [<- | []]. split; [discriminate | exact Hcur].
      * now apply (IH k EmptyString).
Qed.

Lemma fieldsFrom_word (s cur : string) :
  allChars (fun c => negb (isAsciiSpace c) && (N_of_ascii c <? 128)%N) s
  = true ->
  strings.fieldsFrom s 0%nat cur = strings.flush (cur ++ s).
Proof.
  revert cur. induction s as [|c s IH]; intros cur Hs.
  - cbn. now rewrite string_app_nil_r.
  - cbn [allChars] in Hs. apply andb_true_iff in Hs. destruct Hs as [Hc Hs].
    apply andb_true_iff in Hc. destruct Hc as [Hspace Hascii].
    apply negb_true_iff in Hspace. apply N.ltb_lt in Hascii.
    cbn [strings.fieldsFrom].
    assert (Hlen : strings.spaceLen (String c s) = 0%nat).
    { unfold strings.spaceLen, strings.byte.
      unfold isAsciiSpace in Hspace. rewrite Hspace.
      destruct s as [|b s2]; [reflexivity|].
      replace (N_of_ascii c =? 194)%N with false
        by (symmetry; apply N.eqb_neq; lia).
      cbn [andb].
      destruct s2 as [|c3 s3]; [reflexivity|].
      replace (N_of_ascii c =? 225)%N with false
        by (symmetry; apply N.eqb_neq; lia).
      replace (N_of_ascii c =? 226)%N with false
        by (symmetry; apply N.eqb_neq; lia).
      replace (N_of_ascii c =? 227)%N with false
        by (symmetry; apply N.eqb_neq; lia).
      reflexivity. }
    rewrite Hlen, IH by exact Hs.
    now rewrite string_app_assoc.
Qed.

(** X4: [strings.Fields] never returns an empty field, and no field holds
    an ASCII white space byte; a non-empty ASCII word without white space
    is its own single field, and the empty text has no field. *)
Theorem Fields_are_words (s : string) :
  (forall f, In f (strings.Fields s) ->
     f <> EmptyString /\
     allChars (fun c => negb (isAsciiSpace c)) f = true) /\
  (s <> EmptyString ->
   allChars (fun c => negb (isAsciiSpace c) && (N_of_ascii c <? 128)%N) s
   = true ->
   strings.Fields s = [s]) /\
  strings.Fields EmptyString = [].
Proof.
  split; [|split].
  - intros f Hin. now apply (fieldsFrom_fields s 0 EmptyString f).
  - intros Hne Hword. unfold strings.Fields.
    rewrite fieldsFrom_word by exact Hword. cbn [append].
    destruct s; [contradiction | reflexivity].
  - reflexivity.
Qed.

Lemma Fields_are_words_witness :
  strings.Fields "eth0:" = ["eth0:"].
Proof.
  apply (proj1 (proj2 (Fields_are_words "eth0:")));
    [discriminate | reflexivity].
Defined.

Lemma Split_not_nil (s : string) (sep : ascii) : strings.Split s sep <> [].
Proof.
  destruct s as [|c s]; cbn; [discriminate|].
  destruct (Ascii.eqb c sep); [discriminate|].
  destruct (strings.Split s sep); discriminate.
Qed.

Lemma Join_cons_char (c sep : ascii) (piece : string) (pieces : list string) :
  strings.Join (String c piece :: pieces) sep
  = String c (strings.Join (piece :: pieces) sep).
Proof. destruct pieces; reflexivity. Qed.

(** X5: [strings.Split] loses nothing: joining the pieces with the
    separator gives the text back; there is always at least one piece, no
    piece holds the separator, and there is one piece more than the text
    has separators. *)
Theorem Split_Join_round_trip (s : string) (sep : ascii) :
  strings.Join (strings.Split s sep) sep = s /\
  strings.Split s sep <> [] /\
  (forall piece, In piece (strings.Split s sep) ->
     allChars (fun c => negb (Ascii.eqb c sep)) piece = true) /\
  List.length (strings.Split s sep)
  = S (List.length (filter (fun c => Ascii.eqb c sep)
                           (list_ascii_of_string s))).
Proof.
  split; [|split; [apply Split_not_nil | split]].
  - induction s as [|c s IH]; cbn [strings.Split]; [reflexivity|].
    destruct (Ascii.eqb_spec c sep) as [-> | Hne].
    + pose proof (Split_not_nil s sep) as Hnil.
      destruct (strings.Split s sep) as [|piece pieces]; [contradiction|].
      change (strings.Join (EmptyString :: piece :: pieces) sep)
        with (String sep (strings.Join (piece :: pieces) sep)).
      now rewrite IH.
    + pose proof (Split_not_nil s sep) as Hnil.
      destruct (strings.Split s sep) as [|piece pieces]; [contradiction|].
      rewrite Join_cons_char. now rewrite IH.
  - induction s as [|c s IH]; cbn [strings.Split]; intros piece.
    + intros [<- | []]. reflexivity.
    + destruct (Ascii.eqb c sep) eqn:Hc.
      * intros [<- | Hin]; [reflexivity | now apply IH].
      * pose proof (Split_not_nil s sep) as Hnil.
        destruct (strings.Split s sep) as [|p ps]; [contradiction|].
        intros [<- | Hin].
        -- cbn [allChars]. rewrite Hc. cbn. apply IH. now left.
        -- apply IH. now right.
  - induction s as [|c s IH]; cbn [strings.Split list_ascii_of_string filter];
      [reflexivity|].
    destruct (Ascii.eqb c sep).
    + cbn [List.length]. now rewrite IH.
    + pose proof (Split_not_nil s sep) as Hnil.
      destruct (strings.Split s sep) as [|p ps]; [contradiction|].
      cbn [List.length] in *. exact IH.
Qed.

(** ** Parsing the counters *)

Lemma digitsFrom_ge (s : string) (acc : Z) :
  isDigits s = true -> 0 <= acc -> acc <= digitsFrom s acc.
Proof.
  revert acc. induction s as [|c s IH]; intros acc Hs Hacc; cbn; [lia|].
  cbn [isDigits] in Hs. apply andb_true_iff in Hs. destruct Hs as [Hc Hs].
  unfold isDigit in Hc. apply andb_true_iff in Hc.
  rewrite !Z.leb_le in Hc.
  specialize (IH (acc * 10 + (Z.of_N (N_of_ascii c) - 48)) Hs). lia.
Qed.

Lemma parseUintLoop_digits (s : string) (n : Z) :
  isDigits s = true -> 0 <= n <= strconv.maxUint64 ->
  strconv.parseUintLoop s n =
  if digitsFrom s n <=? strconv.maxUint64 then inl (digitsFrom s n)
  else inr strconv.ErrRange.
Proof.
  revert n. induction s as [|c s IH]; intros n Hs Hn;
    cbn [strconv.parseUintLoop digitsFrom].
  - destruct (Z.leb_spec n strconv.maxUint64); [reflexivity | lia].
  - cbn [isDigits] in Hs. apply andb_true_iff in Hs. destruct Hs as [Hc Hs].
    unfold isDigit in Hc. rewrite Hc.
    apply andb_true_iff in Hc. rewrite !Z.leb_le in Hc.
    set (d := Z.of_N (N_of_ascii c) - 48) in *.
    pose proof (digitsFrom_ge s (n * 10 + d) Hs ltac:(lia)) as Hge.
    change (strconv.maxUint64 / 10 + 1) with 1844674407370955162.
    unfold strconv.maxUint64 in *.
    destruct (Z.geb_spec n 1844674407370955162) as [Hcut | Hcut].
    + destruct (Z.leb_spec (digitsFrom s (n * 10 + d)) (2 ^ 64 - 1));
        [lia | reflexivity].
    + destruct (Z.gtb_spec (n * 10 + d) (2 ^ 64 - 1)) as [Hover | Hfit].
      * destruct (Z.leb_spec (digitsFrom s (n * 10 + d)) (2 ^ 64 - 1));
          [lia | reflexivity].
      * apply IH; [exact Hs | lia].
Qed.

Lemma digit_not_sign (c : ascii) :
  isDigit c = true -> Ascii.eqb c "+" = false /\ Ascii.eqb c "-" = false.
Proof.
  intros Hc. split.
  - destruct (Ascii.eqb_spec c "+") as [-> | _]; [discriminate | reflexivity].
  - destruct (Ascii.eqb_spec c "-") as [-> | _]; [discriminate | reflexivity].
Qed.

Lemma ParseUint_digits (s : string) :
  s <> EmptyString -> isDigits s = true ->
  strconv.ParseUint s =
  if digitsValue s <=? strconv.maxUint64 then inl (digitsValue s)
  else inr strconv.ErrRange.
Proof.
  intros Hne Hs. unfold strconv.ParseUint, digitsValue.
  destruct s as [|c s]; [contradiction|].
  apply parseUintLoop_digits; [exact Hs | unfold strconv.maxUint64; lia].
Qed.

Lemma ParseInt_after_sign (s : string) (neg : bool) :
  s <> EmptyString -> isDigits s = true ->
  match strconv.ParseUint s with
  | inl un =>
      if negb neg && (un >=? 2 ^ 63) then inr strconv.ErrRange
      else if neg && (un >? 2 ^ 63) then inr strconv.ErrRange
      else inl (if neg then - un else un)
  | inr strconv.ErrSyntax => inr strconv.ErrSyntax
  | inr strconv.ErrRange => inr strconv.ErrRange
  end =
  (if neg
   then if digitsValue s <=? 2 ^ 63 then inl (- digitsValue s)
        else inr strconv.ErrRange
   else if digitsValue s <? 2 ^ 63 then inl (digitsValue s)
        else inr strconv.ErrRange).
Proof.
  intros Hne Hs. rewrite (ParseUint_digits s Hne Hs).
  unfold strconv.maxUint64. set (v := digitsValue s).
  destruct (Z.leb_spec v (2 ^ 64 - 1)); destruct neg; cbn [negb andb].
  - destruct (Z.gtb_spec v (2 ^ 63)); destruct (Z.leb_spec v (2 ^ 63));
      lia || reflexivity.
  - destruct (Z.geb_spec v (2 ^ 63)); destruct (Z.ltb_spec v (2 ^ 63));
      lia || reflexivity.
  - destruct (Z.leb_spec v (2 ^ 63)); [lia | reflexivity].
  - destruct (Z.ltb_spec v (2 ^ 63)); [lia | reflexivity].
Qed.

Lemma ParseInt_unsigned_digits (s : string) :
  s <> EmptyString -> isDigits s = true ->
  strconv.ParseInt s =
  if digitsValue s <? 2 ^ 63 then inl (digitsValue s)
  else inr strconv.ErrRange.
Proof.
  intros Hne Hs. pose proof (ParseInt_after_sign s false Hne Hs) as Hplain.
  destruct s as [|c rest]; [contradiction|].
  pose proof Hs as Hc. cbn [isDigits] in Hc.
  apply andb_true_iff in Hc. destruct Hc as [Hc _].
  destruct (digit_not_sign c Hc) as [Hplus Hminus].
  unfold strconv.ParseInt. rewrite Hplus, Hminus. cbn [orb].
  exact Hplain.
Qed.

(** X6: what [strconv.ParseInt] makes of a non-empty string of decimal
    digits, with or without a sign: the number written when it fits an
    int64, a range error when it does not; leading zeros are accepted.
    The empty string and a lone sign are syntax errors. *)
Theorem ParseInt_digits (s : string) :
  s <> EmptyString -> isDigits s = true ->
  let v := digitsValue s in
  strconv.ParseInt s
  = (if v <? 2 ^ 63 then inl v else inr strconv.ErrRange) /\
  strconv.ParseInt ("+" ++ s)
  = (if v <? 2 ^ 63 then inl v else inr strconv.ErrRange) /\
  strconv.ParseInt ("-" ++ s)
  = (if v <=? 2 ^ 63 then inl (- v) else inr strconv.ErrRange) /\
  0 <= v /\
  strconv.ParseInt EmptyString = inr strconv.ErrSyntax /\
  strconv.ParseInt "-" = inr strconv.ErrSyntax /\
  strconv.ParseInt "+" = inr strconv.ErrSyntax.
Proof.
  intros Hne Hs v.
  assert (Hv : 0 <= v) by (apply (digitsFrom_ge s 0 Hs); lia).
  split; [apply ParseInt_unsigned_digits; assumption|].
  split; [|split].
  - cbn [append]. unfold strconv.ParseInt.
    change (Ascii.eqb "+" "-") with false.
    change (Ascii.eqb "+" "+") with true. cbn [orb].
    exact (ParseInt_after_sign s false Hne Hs).
  - cbn [append]. unfold strconv.ParseInt.
    change (Ascii.eqb "-" "-") with true.
    change (Ascii.eqb "-" "+") with false. cbn [orb].
    exact (ParseInt_after_sign s true Hne Hs).
  - repeat split; try reflexivity. exact Hv.
Qed.

Lemma ParseInt_digits_witness :
  strconv.ParseInt "0042" = inl 42 /\
  strconv.ParseInt "+0042" = inl 42 /\
  strconv.ParseInt "-0042" = inl (-42).
Proof.
  destruct (ParseInt_digits "0042" ltac:(discriminate) eq_refl)
    as (Hplain & Hplus & Hminus & _).
  exact (conj Hplain (conj Hplus Hminus)).
Defined.

Lemma entry_field_in (interfaceName line : string) (i : nat) :
  entryFor interfaceName line = true -> (i < 10)%nat ->
  In (nth i (strings.Fields line) EmptyString) (strings.Fields line).
Proof.
  intros Hentry Hi. unfold entryFor in Hentry.
  apply andb_true_iff in Hentry. destruct Hentry as [_ Hlen].
  apply Nat.leb_le in Hlen. apply nth_In. lia.
Qed.

(** X7: when the second and the tenth field of the line that answers the
    lookup are digit strings, [readNetworkBytes] returns the numbers they
    write if both are below 2^63, and fails with a range error as soon as
    one of them is 2^63 or more: the upper half of the kernel's unsigned
    64-bit counters cannot be read. *)
Theorem readNetworkBytes_digit_counters
    (interfaceName data line : string) :
  find (entryFor interfaceName) (strings.Split data newline) = Some line ->
  let rxField := nth 1 (strings.Fields line) EmptyString in
  let txField := nth 9 (strings.Fields line) EmptyString in
  isDigits rxField = true ->
  isDigits txField = true ->
  readNetworkBytes (Some data) interfaceName =
  if digitsValue rxField <? 2 ^ 63 then
    if digitsValue txField <? 2 ^ 63
    then inl (digitsValue rxField, digitsValue txField)
    else inr (ParseError strconv.ErrRange)
  else inr (ParseError strconv.ErrRange).
Proof.
  intros Hfind rxField txField Hrx Htx.
  unfold readNetworkBytes. rewrite scanLines_find, Hfind.
  apply find_some in Hfind. destruct Hfind as [_ Hentry].
  assert (Hrxne : rxField <> EmptyString).
  { apply (fieldsFrom_fields line 0 EmptyString rxField eq_refl).
    apply (entry_field_in interfaceName line 1 Hentry). lia. }
  assert (Htxne : txField <> EmptyString).
  { apply (fieldsFrom_fields line 0 EmptyString txField eq_refl).
    apply (entry_field_in interfaceName line 9 Hentry). lia. }
  unfold countersOf. fold rxField txField.
  rewrite (ParseInt_unsigned_digits rxField Hrxne Hrx).
  rewrite (ParseInt_unsigned_digits txField Htxne Htx).
  destruct (digitsValue rxField <? 2 ^ 63);
    destruct (digitsValue txField <? 2 ^ 63); reflexivity.
Qed.

Lemma readNetworkBytes_digit_counters_witness :
  readNetworkBytes (Some (netDevOf "9223372036854775808" "5")) "eth0"
  = inr (ParseError strconv.ErrRange) /\
  readNetworkBytes (Some (netDevOf "9223372036854775807" "5")) "eth0"
  = inl (9223372036854775807, 5).
Proof.
  split.
  - exact (readNetworkBytes_digit_counters "eth0"
             (netDevOf "9223372036854775808" "5")
             "  eth0: 9223372036854775808 7 0 0 0 0 0 0 5 9 0 0 0 0 0 0"
             eq_refl eq_refl eq_refl).
  - exact (readNetworkBytes_digit_counters "eth0"
             (netDevOf "9223372036854775807" "5")
             "  eth0: 9223372036854775807 7 0 0 0 0 0 0 5 9 0 0 0 0 0 0"
             eq_refl eq_refl eq_refl).
Defined.

(** ** The whole run *)

(** X8: a run that cannot read its configuration, its state file or the
    interface counters ends the process with status 1 after logging one
    error; it writes no file and posts nothing.  In particular a first run
    that does not find the interface leaves no state file behind. *)
Theorem run_failure_has_no_effect (env : Env) (w : World) :
  (exists err, readConfig env = inr err) \/
  (exists config,
      readConfig env = inl config /\
      (disk w (StatsFile config) = Unreadable \/
       disk w (StatsFile config) = Malformed \/
       exists err,
         readNetworkBytes (procNetDev env) (Interface config) = inr err)) ->
  let r := Scheduled.SendMonthlyNetStats env w in
  fst r = Exited 1 /\
  disk (snd r) = disk w /\
  outbox (snd r) = outbox w /\
  exists entry,
    logged (snd r) = (logged w ++ [entry])%list /\
    isErrorEntry entry = true.
Proof.
  intros Hfail r. subst r. unfold Scheduled.SendMonthlyNetStats.
  destruct Hfail as [(err & Hconfig) | (config & Hconfig & Hfail)];
    rewrite Hconfig; run_step.
  - cbn. repeat split. eexists. split; reflexivity.
  - destruct Hfail as [Hdisk | [Hdisk | (err & Hnet)]].
    + rewrite Hdisk. cbn. repeat split. eexists. split; reflexivity.
    + rewrite Hdisk. cbn. repeat split. eexists. split; reflexivity.
    + rewrite Hnet.
      destruct (disk w (StatsFile config)); cbn; repeat split;
        eexists; split; reflexivity.
Qed.

Lemma run_failure_has_no_effect_witness :
  let r := Scheduled.SendMonthlyNetStats
             (mkEnv (inl (mkConfig "UTC" "wlan0" "/tmp/s.json" "" ""))
                    None (mkTime 2025 2 "") (Some (netDevOf "1" "2"))
                    (fun _ => true) (Some 204))
             freshWorld in
  fst r = Exited 1 /\
  disk (snd r) = disk freshWorld /\
  outbox (snd r) = outbox freshWorld /\
  exists entry,
    logged (snd r) = (logged freshWorld ++ [entry])%list /\
    isErrorEntry entry = true.
Proof.
  apply run_failure_has_no_effect.
  right. exists (mkConfig "UTC" "wlan0" "/tmp/s.json" "" "").
  split; [reflexivity|]. right. right.
  exists (InterfaceNotFound "wlan0"). reflexivity.
Defined.

(** X9: a run changes no file but the state file named by the
    configuration. *)
Theorem run_touches_only_the_state_file (env : Env) (w : World) (p : string) :
  (forall config, readConfig env = inl config -> p <> StatsFile config) ->
  disk (snd (Scheduled.SendMonthlyNetStats env w)) p = disk w p.
Proof.
  intros Hp. run_cases env w; try reflexivity;
    apply writeFile_other; now apply Hp.
Qed.

Lemma run_touches_only_the_state_file_witness :
  disk (snd (Scheduled.SendMonthlyNetStats
               (sampleEnv 2025 2 "1500" "800" true) freshWorld))
       "/etc/passwd"
  = disk freshWorld "/etc/passwd".
Proof.
  apply run_touches_only_the_state_file.
  intros config Hconfig. injection Hconfig as <-. discriminate.
Defined.

(** X10: whatever a run posts is one request built from non-negative
    usage values; a run that returns a report has posted exactly that
    report, its total is the sum of its two parts, and the webhook answered
    204; a run that returns [Skip] or [ResetDetected] has posted nothing. *)
Theorem run_posts_only_nonnegative_usage (env : Env) (w : World) :
  let r := Scheduled.SendMonthlyNetStats env w in
  (outbox (snd r) = outbox w \/
   exists config usedRX usedTX,
     readConfig env = inl config /\ 0 <= usedRX /\ 0 <= usedTX /\
     outbox (snd r)
     = (outbox w ++ [requestFor env config usedRX usedTX])%list) /\
  (forall usedRX usedTX total,
      fst r = Returned (Report usedRX usedTX total) ->
      0 <= usedRX /\ 0 <= usedTX /\ total = usedRX + usedTX /\
      webhook env = Some 204 /\
      exists config,
        readConfig env = inl config /\
        outbox (snd r)
        = (outbox w ++ [requestFor env config usedRX usedTX])%list) /\
  (fst r = Returned Skip \/ fst r = Returned ResetDetected ->
   outbox (snd r) = outbox w).
Proof.
  intros r. subst r. run_cases env w;
    (split; [|split]);
    try (left; reflexivity);
    try (intros [H | H]; discriminate H || reflexivity);
    try (intros ? ? ? H; discriminate H);
    try sign_facts.
  all: try (right; eexists _, _, _; split; [reflexivity|];
            split; [|split]; [| |reflexivity]; lia).
  all: intros a b c H; injection H as <- <- <-;
    apply Z.eqb_eq in Hstatus; subst;
    repeat split; try lia; eexists; split; reflexivity.
Qed.



(** X12: a run only appends to the log.  When it ends the process, the
    status is 1 and the last entry it logged is an error; when it returns,
    it has logged no error. *)
Theorem run_exit_status_and_log (env : Env) (w : World) :
  let r := Scheduled.SendMonthlyNetStats env w in
  exists added,
    logged (snd r) = (logged w ++ added)%list /\
    match fst r with
    | Exited code =>
        code = 1 /\
        exists before entry,
          added = (before ++ [entry])%list /\ isErrorEntry entry = true
    | Returned _ =>
        forallb (fun e => negb (isErrorEntry e)) added = true
    end.
Proof.
  intros r. subst r. run_cases env w; rewrite <- ?app_assoc;
    first
      [ exists []; split; [symmetry; apply app_nil_r | reflexivity]
      | eexists; split; [reflexivity|];
        first
          [ reflexivity
          | split; [reflexivity|];
            first [ exists []; eexists; split; reflexivity
                  | eexists [_]; eexists; split; reflexivity ] ] ].
Qed.

(** X13: on the normal accounting path a run can be repeated: with the same
    surroundings the second run ends like the first and posts the same
    request again, whether or not the webhook accepted the first one. *)
Theorem normal_run_can_be_repeated
    (env : Env) (w : World) (config : Config) (stats : Stats)
    (currentRX currentTX : Z) :
  readConfig env = inl config ->
  readNetworkBytes (procNetDev env) (Interface config)
  = inl (currentRX, currentTX) ->
  disk w (StatsFile config) = Holds stats ->
  Month stats = monthKeyOf env ->
  RX stats <= currentRX ->
  TX stats <= currentTX ->
  let r1 := Scheduled.SendMonthlyNetStats env w in
  let r2 := Scheduled.SendMonthlyNetStats env (snd r1) in
  let request :=
    requestFor env config (currentRX - RX stats) (currentTX - TX stats) in
  fst r2 = fst r1 /\
  disk (snd r2) = disk w /\
  outbox (snd r2) = (outbox w ++ [request; request])%list.
Proof.
  intros Hconfig Hnet Hdisk Hmonth Hrx Htx r1 r2 request.
  apply String.eqb_eq in Hmonth.
  destruct (normal_path env w config currentRX currentTX Hconfig Hnet
              stats Hdisk Hmonth Hrx Htx) as (Hout1 & Hd1 & Hbox1).
  fold r1 in Hout1, Hd1, Hbox1.
  assert (Hdisk1 : disk (snd r1) (StatsFile config) = Holds stats)
    by (rewrite Hd1; exact Hdisk).
  destruct (normal_path env (snd r1) config currentRX currentTX Hconfig Hnet
              stats Hdisk1 Hmonth Hrx Htx) as (Hout2 & Hd2 & Hbox2).
  fold r2 in Hout2, Hd2, Hbox2.
  split; [congruence | split; [congruence|]].
  rewrite Hbox2, Hbox1, <- app_assoc. reflexivity.
Qed.

Lemma normal_run_can_be_repeated_witness :
  let env := sampleEnv 2025 1 "1500" "800" true in
  let w := worldWith (mkStats "2025-01" 1000 500) in
  let r1 := Scheduled.SendMonthlyNetStats env w in
  let r2 := Scheduled.SendMonthlyNetStats env (snd r1) in
  let request := requestFor env sampleConfig (1500 - 1000) (800 - 500) in
  fst r2 = fst r1 /\
  disk (snd r2) = disk w /\
  outbox (snd r2) = (outbox w ++ [request; request])%list.
Proof.
  intros env w.
  apply (normal_run_can_be_repeated env w sampleConfig
           (mkStats "2025-01" 1000 500) 1500 800);
    try reflexivity; cbn; lia.
Defined.

(** X14: on a rollover the new baseline is written before the notification
    is posted: when the webhook does not answer 204 the process ends with
    status 1, the request has been made, and the state file already holds
    the new period. *)
Theorem rollover_delivery_failure_keeps_new_baseline
    (env : Env) (w : World) (config : Config) (stats : Stats)
    (currentRX currentTX : Z) :
  readConfig env = inl config ->
  readNetworkBytes (procNetDev env) (Interface config)
  = inl (currentRX, currentTX) ->
  disk w (StatsFile config) = Holds stats ->
  Month stats <> monthKeyOf env ->
  canWrite env (StatsFile config) = true ->
  webhook env <> Some 204 ->
  let r := Scheduled.SendMonthlyNetStats env w in
  fst r = Exited 1 /\
  disk (snd r) (StatsFile config)
  = Holds (mkStats (monthKeyOf env) currentRX currentTX) /\
  outbox (snd r) = (outbox w ++ [requestFor env config 0 0])%list.
Proof.
  intros Hconfig Hnet Hdisk Hmonth Hwrite Hhook r.
  apply String.eqb_neq in Hmonth.
  destruct (rollover_path env w config currentRX currentTX Hconfig Hnet
              stats Hdisk Hmonth Hwrite) as (Hout & Hd & Hbox).
  fold r in Hout, Hd, Hbox.
  split; [|split; [rewrite Hd; apply writeFile_same | exact Hbox]].
  rewrite Hout. unfold afterPost.
  destruct (webhook env) as [status|]; [|reflexivity].
  destruct (Z.eqb_spec status 204) as [-> | _]; [contradiction | reflexivity].
Qed.

Lemma rollover_delivery_failure_keeps_new_baseline_witness :
  let env := mkEnv (inl sampleConfig) (Some "/root") (mkTime 2025 2 "")
                   (Some (netDevOf "1500" "800")) (fun _ => true)
                   (Some 429) in
  let w := worldWith (mkStats "2025-01" 1000 500) in
  let r := Scheduled.SendMonthlyNetStats env w in
  fst r = Exited 1 /\
  disk (snd r) (StatsFile sampleConfig) = Holds (mkStats "2025-02" 1500 800) /\
  outbox (snd r) = (outbox w ++ [requestFor env sampleConfig 0 0])%list.
Proof.
  intros env w.
  apply (rollover_delivery_failure_keeps_new_baseline env w sampleConfig
           (mkStats "2025-01" 1000 500) 1500 800);
    try reflexivity; vm_compute; discriminate.
Defined.

(** ** The cron job and [main] *)

Lemma run_outbox_extends (env : Env) (w : World) :
  exists posted,
    outbox (snd (Scheduled.SendMonthlyNetStats env w))
    = (outbox w ++ posted)%list /\
    (List.length posted <= 1)%nat.
Proof.
  run_cases env w;
    first
      [ exists []; split; [symmetry; apply app_nil_r | cbn; lia]
      | eexists [_]; split; [reflexivity | cbn; lia] ].
Qed.

Lemma run_exit_code (env : Env) (w : World) (code : Z) :
  fst (Scheduled.SendMonthlyNetStats env w) = Exited code -> code = 1.
Proof.
  run_cases env w; intros H; try discriminate H; now injection H as <-.
Qed.

Lemma first_run_never_posts (env : Env) (w : World) (config : Config) :
  readConfig env = inl config ->
  disk w (StatsFile config) = NotExist ->
  outbox (snd (Scheduled.SendMonthlyNetStats env w)) = outbox w.
Proof.
  intros Hconfig Hdisk. unfold Scheduled.SendMonthlyNetStats.
  rewrite Hconfig. run_step. rewrite Hdisk.
  destruct (readNetworkBytes (procNetDev env) (Interface config))
    as [[currentRX currentTX]|err]; [|reflexivity].
  run_step. rewrite monthKey_not_empty. run_step.
  destruct (canWrite env (StatsFile config)); reflexivity.
Qed.


(** X16: the job never withdraws a request and posts at most one per
    firing: after [envs] firings the outbox is the old outbox followed by at
    most [length envs] requests. *)
Theorem fire_posts_at_most_one_per_firing (envs : list Env) (w : World) :
  exists posted,
    outbox (snd (Scheduled.fire envs w)) = (outbox w ++ posted)%list /\
    (List.length posted <= List.length envs)%nat.
Proof.
  revert w. induction envs as [|env envs IH]; intros w.
  - exists []. split; [symmetry; apply app_nil_r | cbn; lia].
  - cbn [Scheduled.fire]. unfold bind at 1.
    destruct (run_outbox_extends env w) as (posted1 & Hbox1 & Hlen1).
    destruct (Scheduled.SendMonthlyNetStats env w) as [[a|code] w1];
      cbn [fst snd] in *.
    + unfold bind. destruct (IH w1) as (posted2 & Hbox2 & Hlen2).
      destruct (Scheduled.fire envs w1) as [[actions|code] w2];
        cbn [fst snd ret] in *;
        exists (posted1 ++ posted2)%list;
        (split; [rewrite Hbox2, Hbox1; apply eq_sym, app_assoc
                | rewrite length_app; cbn; lia]).
    + exists posted1. split; [exact Hbox1 | cbn; lia].
Qed.

(** X17: starting the process never sends a notification: up to the
    registration of the job, [main] posts nothing; and when a state file
    exists it writes nothing either. *)
Theorem main_boot_never_notifies (boot : Scheduled.Boot) (w : World) :
  let r := Scheduled.main boot [] w in
  outbox (snd r) = outbox w /\
  (forall config,
      readConfig (Scheduled.bootEnv boot) = inl config ->
      disk w (StatsFile config) <> NotExist ->
      disk (snd r) = disk w).
Proof.
  intros r. subst r. unfold Scheduled.main. cbn [Scheduled.fire].
  destruct (readConfig (Scheduled.bootEnv boot)) as [config|err] eqn:Hconfig;
    [|split; [reflexivity | intros c H; discriminate H]].
  destruct (Scheduled.schedulerFails boot);
    [split; [reflexivity | intros c H; reflexivity]|].
  run_step.
  destruct (disk w (StatsFile config)) eqn:Hdisk.
  - pose proof (first_run_never_posts _ w config Hconfig Hdisk) as Hbox.
    split.
    + destruct (Scheduled.SendMonthlyNetStats (Scheduled.bootEnv boot) w)
        as [[a|code] w1]; cbn [fst snd] in *; [|exact Hbox].
      destruct (Scheduled.jobFails boot); cbn; exact Hbox.
    + intros c Hc Hne. injection Hc as <-. contradiction.
  - split; [|intros _ _ _];
      (destruct (Scheduled.jobFails boot); reflexivity).
  - split; [|intros _ _ _];
      (destruct (Scheduled.jobFails boot); reflexivity).
  - split; [|intros _ _ _];
      (destruct (Scheduled.jobFails boot); reflexivity).
Qed.

Lemma main_boot_never_notifies_witness :
  let boot := Scheduled.mkBoot (sampleEnv 2025 2 "1500" "800" true)
                               false false in
  let w := worldWith (mkStats "2025-01" 1000 500) in
  disk (snd (Scheduled.main boot [] w)) = disk w.
Proof.
  intros boot w.
  apply (proj2 (main_boot_never_notifies boot w) sampleConfig eq_refl).
  vm_compute. discriminate.
Defined.



(** X19: when the scheduler or the job cannot be set up, [main] ends with
    status 1 and no firing ever runs.  A failing scheduler ends it before
    the state file is looked at; a failing job registration comes after the
    run of a first start, whose baseline is then already written. *)
Theorem main_setup_failure_is_fatal
    (boot : Scheduled.Boot) (firings : list Env) (w : World)
    (config : Config) :
  readConfig (Scheduled.bootEnv boot) = inl config ->
  (Scheduled.schedulerFails boot = true ->
   Scheduled.main boot firings w =
   (Exited 1,
    mkWorld (disk w)
            (logged w ++ [mkLogEntry LevelError "スケジューラの作成に失敗"
                                     (Some SchedulerError)])
            (outbox w))) /\
  (Scheduled.schedulerFails boot = false ->
   Scheduled.jobFails boot = true ->
   fst (Scheduled.main boot firings w) = Exited 1 /\
   Scheduled.main boot firings w = Scheduled.main boot [] w /\
   (disk w (StatsFile config) = NotExist ->
    canWrite (Scheduled.bootEnv boot) (StatsFile config) = true ->
    forall currentRX currentTX,
      readNetworkBytes (procNetDev (Scheduled.bootEnv boot))
                       (Interface config) = inl (currentRX, currentTX) ->
      disk (snd (Scheduled.main boot firings w)) (StatsFile config)
      = Holds (mkStats (monthKeyOf (Scheduled.bootEnv boot))
                       currentRX currentTX))).
Proof.
  intros Hconfig. unfold Scheduled.main. rewrite Hconfig. split.
  - intros ->. destruct w; reflexivity.
  - intros -> ->. run_step.
    destruct (disk w (StatsFile config)) eqn:Hdisk.
    + split; [|split; [reflexivity|]].
      * destruct (Scheduled.SendMonthlyNetStats (Scheduled.bootEnv boot) w)
          as [[a|code] w1] eqn:Hrun; cbn [fst snd]; [reflexivity|].
        f_equal. apply (run_exit_code (Scheduled.bootEnv boot) w).
        now rewrite Hrun.
      * intros _ Hwrite currentRX currentTX Hnet.
        rewrite (first_run_path _ w config currentRX currentTX Hconfig Hnet
                   Hdisk Hwrite).
        cbn. apply writeFile_same.
    + split; [reflexivity | split; [reflexivity | intros H; discriminate H]].
    + split; [reflexivity | split; [reflexivity | intros H; discriminate H]].
    + split; [reflexivity | split; [reflexivity | intros H; discriminate H]].
Qed.

Lemma main_setup_failure_is_fatal_witness :
  let boot := Scheduled.mkBoot (sampleEnv 2025 2 "1500" "800" true)
                               false true in
  fst (Scheduled.main boot [sampleEnv 2025 3 "2500" "900" true] freshWorld)
  = Exited 1 /\
  disk (snd (Scheduled.main boot [sampleEnv 2025 3 "2500" "900" true]
                            freshWorld))
       (StatsFile sampleConfig)
  = Holds (mkStats "2025-02" 1500 800).
Proof.
  intros boot.
  destruct (main_setup_failure_is_fatal boot
              [sampleEnv 2025 3 "2500" "900" true] freshWorld sampleConfig
              eq_refl) as (_ & Hjob).
  destruct (Hjob eq_refl eq_refl) as (Hexit & _ & Hstate).
  split; [exact Hexit|].
  exact (Hstate eq_refl eq_refl 1500 800 eq_refl).
Defined.

(** ** The one-shot program, continued *)

(** X20: main.go has no counter-reset check.  In the period of the stored
    state it always reports the signed int64 differences between the
    counters and the baseline and leaves the state file alone: a counter
    that fell below its baseline is posted as negative usage. *)
Theorem OneShot_reports_signed_difference
    (env : Env) (w : World) (config : Config) (stats : Stats)
    (currentRX currentTX : Z) :
  readConfig env = inl config ->
  readNetworkBytes (procNetDev env) (Interface config)
  = inl (currentRX, currentTX) ->
  disk w (StatsFile config) = Holds stats ->
  Month stats = monthKeyOf env ->
  OneShot.isInt64 (RX stats) = true ->
  OneShot.isInt64 (TX stats) = true ->
  - 2 ^ 63 <= currentRX - RX stats < 2 ^ 63 ->
  - 2 ^ 63 <= currentTX - TX stats < 2 ^ 63 ->
  - 2 ^ 63 <= currentRX - RX stats + (currentTX - TX stats) < 2 ^ 63 ->
  let usedRX := currentRX - RX stats in
  let usedTX := currentTX - TX stats in
  let r := OneShot.main env w in
  fst r = afterPost env (Report usedRX usedTX (usedRX + usedTX)) /\
  disk (snd r) = disk w /\
  outbox (snd r)
  = (outbox w ++
     [mkRequest (WebhookURL config)
        (OneShot.payloadOf env (Interface config)
           (OneShot.formatBytes usedRX) (OneShot.formatBytes usedTX)
           (OneShot.formatBytes (usedRX + usedTX)) (BotName config))])%list /\
  (currentRX < RX stats -> usedRX < 0) /\
  (currentTX < TX stats -> usedTX < 0).
Proof.
  intros Hconfig Hnet Hdisk Hmonth Hfitrx Hfittx Hrx Htx Htotal
         usedRX usedTX r.
  apply String.eqb_eq in Hmonth.
  subst r usedRX usedTX.
  unfold OneShot.main, OneShot.loadStats, OneShot.sendToDiscord, afterPost,
    monthKeyOf in *.
  rewrite Hconfig. run_step. rewrite Hdisk, Hfitrx, Hfittx.
  cbn [andb]. rewrite Hnet. run_step. rewrite Hmonth. run_step.
  rewrite (wrap64_id (currentRX - RX stats)) by lia.
  rewrite (wrap64_id (currentTX - TX stats)) by lia.
  rewrite wrap64_id by lia.
  destruct (webhook env) as [status|]; [destruct (status =? 204)|];
    cbn [fst snd disk outbox]; repeat split; lia.
Qed.

Lemma OneShot_reports_signed_difference_witness :
  let env := sampleEnv 2025 1 "100" "900" true in
  let w := worldWith (mkStats "2025-01" 900 900) in
  fst (OneShot.main env w)
  = afterPost env (Report (100 - 900) (900 - 900) (100 - 900 + (900 - 900))) /\
  disk (snd (OneShot.main env w)) = disk w.
Proof.
  intros env w.
  destruct (OneShot_reports_signed_difference env w sampleConfig
              (mkStats "2025-01" 900 900) 100 900
              eq_refl eq_refl eq_refl eq_refl eq_refl eq_refl
              ltac:(cbn; lia) ltac:(cbn; lia) ltac:(cbn; lia))
    as (Hout & Hd & _).
  exact (conj Hout Hd).
Defined.

(** X21: away from the normal accounting path the two programs do the
    same: when the state file is missing, unreadable, malformed, or holds
    int64 counters of another period, main.go ends like the scheduled run,
    leaves the same files and the same log, and posts as many requests. *)
Theorem OneShot_agrees_outside_normal_path (env : Env) (w : World) :
  (forall config stats,
      readConfig env = inl config ->
      disk w (StatsFile config) = Holds stats ->
      Month stats <> monthKeyOf env /\
      OneShot.isInt64 (RX stats) && OneShot.isInt64 (TX stats) = true) ->
  let r1 := OneShot.main env w in
  let r2 := Scheduled.SendMonthlyNetStats env w in
  fst r1 = fst r2 /\
  disk (snd r1) = disk (snd r2) /\
  logged (snd r1) = logged (snd r2) /\
  notifications (snd r1) = notifications (snd r2).
Proof.
  intros Hstate r1 r2. subst r1 r2.
  unfold OneShot.main, Scheduled.SendMonthlyNetStats, OneShot.loadStats,
    OneShot.sendToDiscord, notifications.
  destruct (readConfig env) as [config|err] eqn:Hconfig;
    [|repeat split].
  run_step.
  destruct (disk w (StatsFile config)) as [| | |stats] eqn:Hdisk;
    try solve [repeat split].
  destruct (Hstate config stats eq_refl Hdisk) as [Hmonth Hfit].
  apply String.eqb_neq in Hmonth. unfold monthKeyOf in Hmonth.
  rewrite Hfit.
  destruct (readNetworkBytes (procNetDev env) (Interface config))
    as [[currentRX currentTX]|err]; [|repeat split].
  run_step. rewrite !Hmonth. run_step.
  destruct (canWrite env (StatsFile config)); [|repeat split].
  cbn [RX TX]. rewrite !Z.sub_diag.
  change (OneShot.wrap64 0) with 0. change (OneShot.wrap64 (0 + 0)) with 0.
  change ((0 <? 0) || (0 <? 0)) with false. cbv beta iota.
  destruct (webhook env) as [status|]; [destruct (status =? 204)|];
    cbn [fst snd disk logged outbox]; rewrite ?length_app;
    repeat split.
Qed.

Lemma OneShot_agrees_outside_normal_path_witness :
  let env := sampleEnv 2025 2 "1500" "800" true in
  let w := worldWith (mkStats "2025-01" 1000 500) in
  fst (OneShot.main env w) = fst (Scheduled.SendMonthlyNetStats env w) /\
  disk (snd (OneShot.main env w))
  = disk (snd (Scheduled.SendMonthlyNetStats env w)) /\
  logged (snd (OneShot.main env w))
  = logged (snd (Scheduled.SendMonthlyNetStats env w)) /\
  notifications (snd (OneShot.main env w))
  = notifications (snd (Scheduled.SendMonthlyNetStats env w)).
Proof.
  intros env w.
  apply (OneShot_agrees_outside_normal_path env w).
  intros config stats Hconfig Hdisk.
  injection Hconfig as <-.
  assert (Hstats : stats = mkStats "2025-01" 1000 500)
    by (vm_compute in Hdisk; now injection Hdisk as <-).
  subst stats. split; [vm_compute; discriminate | reflexivity].
Defined.

Lemma OneShot_formatBytes_agrees_witness :
  OneShot.formatBytes (2 ^ 62) = Scheduled.formatBytes (2 ^ 62).
Proof.
  apply OneShot_formatBytes_agrees. lia.
Defined.

(** ** The formatter on negative counts *)

Lemma toFloat64_exact (n s : Z) :
  - 2 ^ 53 < n < 2 ^ 53 -> 0 <= s ->
  toFloat64 (mkDyadic n s) = Finite (mkDyadic n s).
Proof.
  intros Hn Hs. destruct (Z.le_gt_cases 0 n) as [Hpos | Hneg].
  - apply toFloat64_small; lia.
  - unfold toFloat64. cbn [mant scale].
    rewrite roundBits_small by lia.
    assert (Hpow : 2 ^ 53 <= 2 ^ (1024 + s))
      by (apply Z.pow_le_mono_r; lia).
    destruct (Z.geb_spec (Z.abs n) (2 ^ (1024 + s))); [lia|].
    rewrite Z.sgn_neg by lia. do 2 f_equal. lia.
Qed.

Lemma roundHalfEven_unit (num : Z) : roundHalfEven num 1 = num.
Proof.
  unfold roundHalfEven. rewrite Z.div_1_r, Z.mod_1_r. reflexivity.
Qed.

(** X23: a negative count is never scaled: both formatters print it in
    bytes, as a minus sign, the digits of its absolute value and [.00 B]. *)
Theorem formatBytes_negative_unscaled (n : Z) :
  - 2 ^ 53 < n < 0 ->
  Scheduled.formatBytes n = "-" ++ decimal (- n) ++ ".00 B" /\
  OneShot.formatBytes n = "-" ++ decimal (- n) ++ ".00 B".
Proof.
  intros Hn.
  assert (Hprint :
    fmt.Sprintf_2f_s (Finite (mkDyadic n 0)) "B"
    = "-" ++ decimal (- n) ++ ".00 B").
  { unfold fmt.Sprintf_2f_s, fmt.verb_2f, fmt.fixed2. cbn [mant scale].
    destruct (Z.ltb_spec n 0); [|lia].
    change (2 ^ 0) with 1. rewrite roundHalfEven_unit.
    rewrite Z.abs_neq by lia.
    replace (100 * (- n) / 100) with (- n)
      by (rewrite Z.mul_comm, Z.div_mul; lia).
    replace ((100 * (- n)) mod 100) with 0
      by (rewrite Z.mul_comm, Z.mod_mul; lia).
    replace ((100 * (- n)) mod 10) with 0
      by (replace (100 * (- n)) with (10 * (- n) * 10) by lia;
          rewrite Z.mod_mul; lia).
    cbn [append]. rewrite string_app_assoc. reflexivity. }
  assert (Hlt : (n <? 1024 * 2 ^ 0) = true) by (apply Z.ltb_lt; cbn; lia).
  split.
  - unfold Scheduled.formatBytes, big.SetInt. cbn [Scheduled.formatLoop].
    rewrite Cmp_1024, Hlt. unfold big.Float64.
    rewrite toFloat64_exact by lia. exact Hprint.
  - unfold OneShot.formatBytes. rewrite toFloat64_exact by lia.
    cbn [OneShot.formatLoop OneShot.lt_1024 mant scale].
    rewrite Hlt. exact Hprint.
Qed.

Lemma formatBytes_negative_unscaled_witness :
  OneShot.formatBytes (-5000000) = "-5000000.00 B".
Proof.
  exact (proj2 (formatBytes_negative_unscaled (-5000000) ltac:(lia))).
Defined.

(** ** The month key *)

Lemma isDigits_app (s t : string) :
  isDigits (s ++ t) = isDigits s && isDigits t.
Proof.
  induction s as [|c s IH]; cbn; [reflexivity|].
  now rewrite IH, andb_assoc.
Qed.

Lemma isDigits_zeros (k : nat) : isDigits (time.zeros k) = true.
Proof. induction k as [|k IH]; cbn; [reflexivity | exact IH]. Qed.

Lemma isDigits_string_of_uint (d : Decimal.uint) :
  isDigits (NilEmpty.string_of_uint d) = true.
Proof. induction d; cbn; auto. Qed.

Lemma isDigits_decimal (x : Z) : isDigits (decimal x) = true.
Proof.
  unfold decimal, NilZero.string_of_uint.
  destruct (N.to_uint (Z.to_N x)) eqn:Hd; try reflexivity;
    rewrite <- Hd; apply isDigits_string_of_uint.
Qed.

(** Reading a padded decimal back gives the number. *)
Lemma read_padded_decimal (k : nat) (x : Z) :
  option_map N.of_uint (NilEmpty.uint_of_string (time.zeros k ++ decimal x))
  = Some (Z.to_N x).
Proof.
  induction k as [|k IH].
  - cbn [time.zeros append]. unfold decimal, NilZero.string_of_uint.
    set (n := Z.to_N x).
    pose proof (DecimalN.Unsigned.of_to n) as Hof.
    destruct (N.to_uint n) eqn:Hd;
      try (rewrite <- Hd, NilEmpty.usu; cbn [option_map]; now rewrite Hd, Hof).
    cbn in Hof. now subst n; rewrite <- Hof.
  - cbn [time.zeros append NilEmpty.uint_of_string].
    destruct (NilEmpty.uint_of_string (time.zeros k ++ decimal x)) as [d|];
      [|discriminate IH].
    cbn in IH |- *. exact IH.
Qed.

Lemma padded_decimal_inj (k k' : nat) (x x' : Z) :
  0 <= x -> 0 <= x' ->
  time.zeros k ++ decimal x = time.zeros k' ++ decimal x' -> x = x'.
Proof.
  intros Hx Hx' Heq.
  pose proof (read_padded_decimal k x) as Hread.
  rewrite Heq, read_padded_decimal in Hread.
  injection Hread as Hn. apply Z2N.inj in Hn; lia.
Qed.

Lemma split_at_dash (y y' m m' : string) :
  isDigits y = true -> isDigits y' = true ->
  y ++ String "-" m = y' ++ String "-" m' ->
  y = y' /\ m = m'.
Proof.
  revert y'. induction y as [|c y IH]; intros y' Hy Hy' Heq.
  - destruct y' as [|c' y']; cbn in Heq.
    + injection Heq as ->. auto.
    + injection Heq as <- _. cbn in Hy'. discriminate Hy'.
  - destruct y' as [|c' y']; cbn in Heq.
    + injection Heq as -> _. cbn in Hy. discriminate Hy.
    + injection Heq as <- Heq. cbn [isDigits] in Hy, Hy'.
      apply andb_true_iff in Hy. apply andb_true_iff in Hy'.
      destruct (IH y' (proj2 Hy) (proj2 Hy') Heq) as [-> ->]. auto.
Qed.

Lemma appendInt_nonneg (x : Z) (width : nat) :
  0 <= x ->
  time.appendInt x width
  = time.zeros (width - String.length (decimal x)) ++ decimal x.
Proof.
  intros Hx. unfold time.appendInt.
  destruct (Z.ltb_spec x 0); [lia|].
  now rewrite Z.abs_eq by lia.
Qed.

(** X24: the month key tells the months apart: two clock readings (years
    and months not negative) have the same key exactly when they have the
    same year and the same month. *)
Theorem monthKey_injective (t t' : Time) :
  0 <= Year t -> 0 <= Year t' ->
  0 <= MonthOfYear t -> 0 <= MonthOfYear t' ->
  (time.Format_2006_01 t = time.Format_2006_01 t' <->
   Year t = Year t' /\ MonthOfYear t = MonthOfYear t').
Proof.
  intros Hy Hy' Hm Hm'. split.
  - unfold time.Format_2006_01.
    rewrite !appendInt_nonneg by assumption.
    intros Heq. apply split_at_dash in Heq.
    + destruct Heq as [Hyear Hmonth].
      split; eapply padded_decimal_inj; eassumption.
    + now rewrite isDigits_app, isDigits_zeros, isDigits_decimal.
    + now rewrite isDigits_app, isDigits_zeros, isDigits_decimal.
  - intros [Hyear Hmonth]. unfold time.Format_2006_01.
    now rewrite Hyear, Hmonth.
Qed.

Lemma monthKey_injective_witness :
  time.Format_2006_01 (mkTime 2025 1 "a") = time.Format_2006_01 (mkTime 2025 1 "b").
Proof.
  apply (monthKey_injective (mkTime 2025 1 "a") (mkTime 2025 1 "b"));
    cbn; lia.
Defined.

(** ** The int64 total of main.go *)

Lemma wrap64_overflow (z : Z) :
  2 ^ 63 <= z < 2 ^ 63 + 2 ^ 64 -> OneShot.wrap64 z = z - 2 ^ 64.
Proof.
  intros Hz. unfold OneShot.wrap64.
  replace (z + 2 ^ 63) with (z - 2 ^ 63 + 1 * 2 ^ 64) by lia.
  rewrite Z.mod_add by lia. rewrite Z.mod_small by lia. lia.
Qed.

(** X25: main.go adds the two usage values in int64.  When both fit but
    their sum reaches 2^63, the total it reports and formats is the sum
    less 2^64, a negative number, while the two parts are reported
    exactly. *)
Theorem OneShot_total_wraps_beyond_int64
    (env : Env) (w : World) (config : Config) (stats : Stats)
    (currentRX currentTX : Z) :
  readConfig env = inl config ->
  readNetworkBytes (procNetDev env) (Interface config)
  = inl (currentRX, currentTX) ->
  disk w (StatsFile config) = Holds stats ->
  Month stats = monthKeyOf env ->
  0 <= RX stats <= currentRX ->
  0 <= TX stats <= currentTX ->
  2 ^ 63 <= currentRX - RX stats + (currentTX - TX stats) ->
  let usedRX := currentRX - RX stats in
  let usedTX := currentTX - TX stats in
  let total := usedRX + usedTX - 2 ^ 64 in
  let r := OneShot.main env w in
  fst r = afterPost env (Report usedRX usedTX total) /\
  total < 0 /\
  outbox (snd r)
  = (outbox w ++
     [mkRequest (WebhookURL config)
        (OneShot.payloadOf env (Interface config)
           (OneShot.formatBytes usedRX) (OneShot.formatBytes usedTX)
           (OneShot.formatBytes total) (BotName config))])%list.
Proof.
  intros Hconfig Hnet Hdisk Hmonth Hrx Htx Htotal usedRX usedTX total r.
  apply String.eqb_eq in Hmonth.
  destruct (readNetworkBytes_int64 _ _ _ _ Hnet) as [Hrx64 Htx64].
  subst r total usedRX usedTX.
  unfold OneShot.main, OneShot.loadStats, OneShot.sendToDiscord, afterPost,
    monthKeyOf in *.
  rewrite Hconfig. run_step. rewrite Hdisk.
  assert (Hfit : OneShot.isInt64 (RX stats) && OneShot.isInt64 (TX stats)
                 = true).
  { unfold OneShot.isInt64. rewrite !andb_true_iff, !Z.leb_le, !Z.ltb_lt.
    lia. }
  rewrite Hfit, Hnet. run_step. rewrite Hmonth. run_step.
  rewrite (wrap64_id (currentRX - RX stats)) by lia.
  rewrite (wrap64_id (currentTX - TX stats)) by lia.
  rewrite wrap64_overflow by lia.
  destruct (webhook env) as [status|]; [destruct (status =? 204)|];
    cbn [fst snd disk outbox]; repeat split; lia.
Qed.

Lemma OneShot_total_wraps_beyond_int64_witness :
  let env :=
    sampleEnv 2025 1 "4611686018427387904" "4611686018427387904" true in
  let w := worldWith (mkStats "2025-01" 0 0) in
  fst (OneShot.main env w)
  = afterPost env (Report (4611686018427387904 - 0) (4611686018427387904 - 0)
                          (4611686018427387904 - 0 + (4611686018427387904 - 0)
                           - 2 ^ 64)).
Proof.
  intros env w.
  destruct (OneShot_total_wraps_beyond_int64 env w sampleConfig
              (mkStats "2025-01" 0 0)
              4611686018427387904 4611686018427387904
              eq_refl eq_refl eq_refl eq_refl
              ltac:(cbn; lia) ltac:(cbn; lia) ltac:(cbn; lia))
    as (Hout & _).
  exact Hout.
Defined.
